(** * MQLib D-Wave bridge: term extraction, solver bridge and backend adapters

    A shallow embedding of
      - include/heuristics/qubo/dwave_bridge.h: [DWaveResult] and the
        declaration of [run_dwave_solver];
      - the bridge implementation, both branches of [#ifdef USE_DWAVE]
        (it follows the class declaration in include/heuristics/qubo/dwave_sa.h,
        lines 19-159; "bridge, lines ..." below are lines of that file);
      - src/heuristics/qubo/dwave_qpu.cpp: the constructors
        [DWaveQPU::DWaveQPU] (lines 8-56) and [DWaveSA::DWaveSA]
        (lines 64-108).

    C++ [int] values are integers of [Z]; [double] values are IEEE 754
    binary64 values of [spec_float]; [std::string] is [string];
    [std::vector] is [list] and [emplace_back] appends at the end. *)

From Stdlib Require Import ZArith List String Bool Lia Sorted DecimalString.
From Stdlib Require Import Floats.SpecFloat.
Import ListNotations.
Local Open Scope string_scope.
Local Open Scope list_scope.
Local Open Scope Z_scope.

(* ===================================================================== *)
(** ** C++ scalars *)
(* ===================================================================== *)

Module Cpp.

(** [double]: an IEEE 754 binary64 value. *)
Definition double : Type := spec_float.

(** The literal [0.0]. *)
Definition zero : double := S754_zero false.

(** [a != b] on doubles: the negation of IEEE equality, so [-0.0 != 0.0]
    is false and [NaN != x] is true. *)
Definition ne (a b : double) : bool := negb (SFeqb a b).

(** The literals of the worked scenario: [1.0], [-2.0], [3.5], [-0.5]. *)
Definition d_1_0 : double := S754_finite false 4503599627370496 (-52).
Definition d_m2_0 : double := S754_finite true 4503599627370496 (-51).
Definition d_3_5 : double := S754_finite false 7881299347898368 (-51).
Definition d_m0_5 : double := S754_finite true 4503599627370496 (-53).

(** [std::to_string(int)]: the decimal representation. *)
Definition to_string (z : Z) : string := NilZero.string_of_int (Z.to_int z).

(** [s.empty()] on a [std::string]. *)
Definition empty (s : string) : bool :=
  match s with EmptyString => true | String _ _ => false end.

(** [v.empty()] on a [std::vector]. *)
Definition vempty {A : Type} (v : list A) : bool :=
  match v with [] => true | _ :: _ => false end.

(** Exceptions as the handlers of the bridge tell them apart: those
    derived from [std::exception], which carry a [what()] text (every
    exception pybind11 raises for a Python error or a failed cast is of
    this kind), and all others. *)
Inductive exn : Type :=
| StdException (what : string)
| OtherException.

(** How a piece of code ends: normally, by an exception that leaves it, or
    in undefined behaviour (null dereference, read outside a vector). *)
Inductive outcome (A : Type) : Type :=
| Normal (a : A)
| Exceptional (e : exn)
| Undefined.
Arguments Normal {A} a.
Arguments Exceptional {A} e.
Arguments Undefined {A}.

(** [std::length_error], as [std::vector::reserve] throws it (the text is
    the one of libstdc++). *)
Definition length_error : exn := StdException "vector::reserve".

(** [v.reserve(count)] for an [int] expression [count]: the count is
    converted to the unsigned [size_type], so a negative one becomes larger
    than [max_size()] and [reserve] throws [std::length_error]; otherwise
    only the capacity of the vector changes.  (Sums are taken in [Z];
    running out of memory is not modelled.) *)
Definition reserve_throws (count : Z) : bool := count <? 0.

(** A pointer to the caller's [std::string] object, or the null pointer. *)
Inductive string_ptr : Type :=
| nullptr
| address_of_error.

Definition non_null (p : string_ptr) : bool :=
  match p with nullptr => false | address_of_error => true end.

End Cpp.

Import Cpp.

(* ===================================================================== *)
(** ** The optimization instance (collaborator) *)
(* ===================================================================== *)

(** Modelled from the spec: [QUBOInstance] (problem/qubo_instance.h) is a
    collaborator whose declaration is not part of these sources.  The
    adapters use four of its accessors: [get_size()], [get_lin()] (the
    linear weights, indexed [0..size-1]), the iterator range
    [get_all_nonzero_begin() .. get_all_nonzero_end()] over
    [((i, j), weight)] entries, and [get_edge_count()]. *)
Record QUBOInstance : Type := {
  get_size : Z;
  get_lin : list double;
  get_all_nonzero : list ((Z * Z) * double)
}.

(** Number of entries the off-diagonal iterator yields. *)
Definition get_edge_count (qi : QUBOInstance) : Z :=
  Z.of_nat (List.length (get_all_nonzero qi)).

(** The collaborator's contract: there is one linear weight per variable. *)
Definition well_formed (qi : QUBOInstance) : Prop :=
  Z.of_nat (List.length (get_lin qi)) = get_size qi.

(** [std::tuple<int,int,double>]. *)
Definition term : Type := Z * Z * double.

Definition row (t : term) : Z := fst (fst t).
Definition col (t : term) : Z := snd (fst t).
Definition weight (t : term) : double := snd t.

(* ===================================================================== *)
(** ** Term extraction as written in the two constructors *)
(* ===================================================================== *)

(** The instance of the worked scenario: size 3, linear weights
    [1.0, 0.0, -2.0], one off-diagonal pair [(0,2) = 3.5]. *)
Definition scenario : QUBOInstance :=
  {| get_size := 3;
     get_lin := [d_1_0; zero; d_m2_0];
     get_all_nonzero := [((0, 2), d_3_5)] |}.

Module DWaveQPU_src.

(** dwave_qpu.cpp, lines 22-27:
    [for (int i = 0; i < n; ++i) { double w = lin[i];
       if (w != 0.0) terms.emplace_back(i, i, w); }]
    [iterations] is the number of times the body still runs ([n - i],
    or none when [n <= i]); [None] is the undefined behaviour of reading
    [lin[i]] outside the vector. *)
Fixpoint diagonal_loop (iterations : nat) (i : Z) (lin : list double)
    (terms : list term) : option (list term) :=
  match iterations with
  | O => Some terms
  | S k =>
      match nth_error lin (Z.to_nat i) with
      | None => None
      | Some w =>
          diagonal_loop k (i + 1) lin
            (if ne w zero then terms ++ [(i, i, w)] else terms)
      end
  end.

(** dwave_qpu.cpp, lines 30-39: the iterator runs from begin to end. *)
Fixpoint offdiagonal_loop (it : list ((Z * Z) * double))
    (terms : list term) : list term :=
  match it with
  | [] => terms
  | entry :: it' =>
      let i := fst (fst entry) in
      let j := snd (fst entry) in
      let w := snd entry in
      offdiagonal_loop it' (if ne w zero then terms ++ [(i, j, w)] else terms)
  end.

(** dwave_qpu.cpp, lines 15-39: [terms.reserve(n + qi.get_edge_count())]
    (line 19), then the two loops. *)
Definition build_terms (qi : QUBOInstance) : outcome (list term) :=
  let terms : list term := [] in
  let n := get_size qi in
  let lin := get_lin qi in
  if reserve_throws (n + get_edge_count qi) then Exceptional length_error
  else
    match diagonal_loop (Z.to_nat n) 0 lin terms with
    | None => Undefined
    | Some terms => Normal (offdiagonal_loop (get_all_nonzero qi) terms)
    end.

End DWaveQPU_src.

Module DWaveSA_src.

(** dwave_qpu.cpp, lines 76-81, in [DWaveSA::DWaveSA] (the same loop,
    written a second time). *)
Fixpoint diagonal_loop (iterations : nat) (i : Z) (lin : list double)
    (terms : list term) : option (list term) :=
  match iterations with
  | O => Some terms
  | S k =>
      match nth_error lin (Z.to_nat i) with
      | None => None
      | Some w =>
          diagonal_loop k (i + 1) lin
            (if ne w zero then terms ++ [(i, i, w)] else terms)
      end
  end.

(** dwave_qpu.cpp, lines 83-92, in [DWaveSA::DWaveSA]. *)
Fixpoint offdiagonal_loop (it : list ((Z * Z) * double))
    (terms : list term) : list term :=
  match it with
  | [] => terms
  | entry :: it' =>
      let i := fst (fst entry) in
      let j := snd (fst entry) in
      let w := snd entry in
      offdiagonal_loop it' (if ne w zero then terms ++ [(i, j, w)] else terms)
  end.

(** dwave_qpu.cpp, lines 70-92, in [DWaveSA::DWaveSA]:
    [terms.reserve(n + qi.get_edge_count())] (line 74), then the two loops. *)
Definition build_terms (qi : QUBOInstance) : outcome (list term) :=
  let terms : list term := [] in
  let n := get_size qi in
  let lin := get_lin qi in
  if reserve_throws (n + get_edge_count qi) then Exceptional length_error
  else
    match diagonal_loop (Z.to_nat n) 0 lin terms with
    | None => Undefined
    | Some terms => Normal (offdiagonal_loop (get_all_nonzero qi) terms)
    end.

End DWaveSA_src.

(* ===================================================================== *)
(** ** The term list in the words of the specification *)
(* ===================================================================== *)

Module TermSpec.

(** Linear weight of variable [i]. *)
Definition linear_weight (qi : QUBOInstance) (i : nat) : double :=
  nth i (get_lin qi) zero.

(** The indices [0, 1, ..., size-1], in increasing order. *)
Definition indices (qi : QUBOInstance) : list nat :=
  seq 0 (Z.to_nat (get_size qi)).

(** One triple [(i, i, w)] for each index whose linear weight is nonzero. *)
Definition diagonal_terms (qi : QUBOInstance) : list term :=
  map (fun i => (Z.of_nat i, Z.of_nat i, linear_weight qi i))
      (filter (fun i => ne (linear_weight qi i) zero) (indices qi)).

(** One triple [(i, j, w)] for each nonzero entry of the iterator. *)
Definition offdiagonal_terms (qi : QUBOInstance) : list term :=
  map (fun entry => (fst (fst entry), snd (fst entry), snd entry))
      (filter (fun entry => ne (snd entry) zero) (get_all_nonzero qi)).

Definition term_list (qi : QUBOInstance) : list term :=
  diagonal_terms qi ++ offdiagonal_terms qi.

End TermSpec.

(* ===================================================================== *)
(** ** The foreign runtime *)
(* ===================================================================== *)

Module Foreign.

(** Python values that cross the boundary.  [PyHandle] stands for any
    object the bridge only holds and hands back (modules, functions). *)
#[warnings="-register-all"]
Inductive pyobj : Type :=
| PyNone
| PyInt (n : Z)
| PyFloat (x : double)
| PyStr (s : string)
| PyTuple (items : list pyobj)
| PyList (items : list pyobj)
| PyHandle (name : string).

(** What one call into the interpreter does: it returns or it raises. *)
Inductive raised (A : Type) : Type :=
| Returns (a : A)
| Raises (e : exn).
Arguments Returns {A} a.
Arguments Raises {A} e.

(** The calls the bridge makes into the interpreter. *)
Inductive foreign_call : Type :=
| Initialize
| AcquireGIL
| ReleaseGIL
| Import (name : string)
| GetAttr (o : pyobj) (name : string)
| ListInsert (l : pyobj) (index : Z) (item : pyobj)
| Call (f : pyobj) (args : list pyobj)
| AsSequence (o : pyobj)
| GetItem (o : pyobj) (index : Z)
| CastInt (o : pyobj)
| CastBool (o : pyobj)
| CastVectorInt (o : pyobj)
| CastDouble (o : pyobj).

(** The part of [run_dwave_solver] a call belongs to. *)
Inductive phase : Type :=
| Startup          (* interpreter construction, GIL *)
| PathSetup        (* sys.path.insert(0, "python") *)
| VenvProbe        (* the best-effort .venv site-packages block *)
| ImportSolver     (* import mqlib_dwave, solve_qubo *)
| Invocation       (* the call of solve_qubo *)
| Coercion.        (* the result back to C++ values *)

Record event : Type := {
  ev_phase : phase;
  ev_call : foreign_call;
  ev_raised : option exn
}.

(** The embedded interpreter, as the bridge sees it through pybind11:
    the outcome of every call it can make. *)
Record Python : Type := {
  py_initialize : raised unit;
  py_import : string -> raised pyobj;
  py_getattr : pyobj -> string -> raised pyobj;
  py_list_insert : pyobj -> Z -> pyobj -> raised unit;
  py_call : pyobj -> list pyobj -> raised pyobj;
  py_as_sequence : pyobj -> raised pyobj;
  py_getitem : pyobj -> Z -> raised pyobj;
  py_cast_int : pyobj -> raised Z;
  py_cast_bool : pyobj -> raised bool;
  py_cast_vector_int : pyobj -> raised (list Z);
  py_cast_double : pyobj -> raised double
}.

End Foreign.

Import Foreign.

(* ===================================================================== *)
(** ** Collaborators of the adapters *)
(* ===================================================================== *)

(** Modelled from the spec: the heuristic base class [QUBOHeuristic]
    (problem/qubo_heuristic.h) is a collaborator that is not part of these
    sources; its constructor receives the instance, the runtime limit, the
    validation flag and the callback pointer. *)
Record QUBOHeuristic : Type := {
  h_instance : QUBOInstance;
  h_runtime_limit : double;
  h_validation : bool;
  h_callback : option nat
}.

(** Modelled from the spec: the solution object [QUBOSolution]
    (heuristics/qubo/qubo_solution.h, not part of these sources) is
    constructed from the returned assignment against the original instance,
    for the heuristic that found it. *)
Record QUBOSolution : Type := {
  sol_assignments : list Z;
  sol_instance : QUBOInstance;
  sol_heuristic : QUBOHeuristic
}.

(* ===================================================================== *)
(** ** Process state and the monad of the embedding *)
(* ===================================================================== *)

(** The arguments of one call of [run_dwave_solver]. *)
Record bridge_request : Type := {
  req_terms : list term;
  req_backend : string;
  req_config : string;
  req_error_message : string_ptr
}.

(** What the code can observe or change: the function-local static of
    [get_env], the caller's [std::string error] object, the lines written
    to [std::cerr] and the solutions handed to [Report]; and, as history,
    the calls of [run_dwave_solver] and the calls made into the interpreter
    so far. *)
Record process : Type := {
  interpreter_up : bool;
  bridge_requests : list bridge_request;
  foreign_calls : list event;
  error_object : string;
  cerr : list string;
  reported : list QUBOSolution
}.

Definition initial_process : process :=
  {| interpreter_up := false; bridge_requests := []; foreign_calls := [];
     error_object := ""; cerr := []; reported := [] |}.

Definition M (A : Type) : Type := process -> process * outcome A.

Definition ret {A : Type} (a : A) : M A := fun s => (s, Normal a).

Definition bind {A B : Type} (m : M A) (k : A -> M B) : M B :=
  fun s =>
    match m s with
    | (s', Normal a) => k a s'
    | (s', Exceptional e) => (s', Exceptional e)
    | (s', Undefined) => (s', Undefined)
    end.

Notation "x <- m ;; k" := (bind m (fun x => k))
  (at level 61, m at next level, right associativity).
Notation "m ;;; k" := (bind m (fun _ => k))
  (at level 61, right associativity).

(** [try { body } catch (const std::exception& e) { on_std e.what() }
     catch (...) { on_other }]. *)
Definition try_catch_all {A : Type} (body : M A) (on_std : string -> M A)
    (on_other : M A) : M A :=
  fun s =>
    match body s with
    | (s', Exceptional (StdException what)) => on_std what s'
    | (s', Exceptional OtherException) => on_other s'
    | r => r
    end.

(** [try { body } catch (const std::exception&) { on_std }]. *)
Definition try_catch_std {A : Type} (body : M A) (on_std : M A) : M A :=
  fun s =>
    match body s with
    | (s', Exceptional (StdException _)) => on_std s'
    | r => r
    end.

(** History: the calls made into the interpreter, in order. *)
Definition add_calls (new : list event) (s : process) : process :=
  {| interpreter_up := interpreter_up s;
     bridge_requests := bridge_requests s;
     foreign_calls := foreign_calls s ++ new;
     error_object := error_object s;
     cerr := cerr s;
     reported := reported s |}.

Definition record_call (ev : event) (s : process) : process :=
  add_calls [ev] s.

(** One call into the interpreter: it is recorded, then it returns its
    value or its exception is thrown as a C++ exception. *)
Definition foreign {A : Type} (ph : phase) (c : foreign_call) (r : raised A)
    : M A :=
  fun s =>
    match r with
    | Returns a => (record_call {| ev_phase := ph; ev_call := c; ev_raised := None |} s, Normal a)
    | Raises e => (record_call {| ev_phase := ph; ev_call := c; ev_raised := Some e |} s, Exceptional e)
    end.

(** [*p = v] (and [p->clear()] for [v = ""]): undefined on the null pointer. *)
Definition store (p : string_ptr) (v : string) : M unit :=
  fun s =>
    match p with
    | nullptr => (s, Undefined)
    | address_of_error =>
        ({| interpreter_up := interpreter_up s;
            bridge_requests := bridge_requests s;
            foreign_calls := foreign_calls s;
            error_object := v;
            cerr := cerr s;
            reported := reported s |}, Normal tt)
    end.

(** [std::cerr << ... << std::endl]. *)
Definition write_cerr (line : string) : M unit :=
  fun s =>
    ({| interpreter_up := interpreter_up s;
        bridge_requests := bridge_requests s;
        foreign_calls := foreign_calls s;
        error_object := error_object s;
        cerr := cerr s ++ [line];
        reported := reported s |}, Normal tt).

(** Modelled from the spec: [QUBOHeuristic::Report] is the report sink of
    the heuristic framework (not part of these sources); it receives the
    solution. *)
Definition Report (sol : QUBOSolution) : M unit :=
  fun s =>
    ({| interpreter_up := interpreter_up s;
        bridge_requests := bridge_requests s;
        foreign_calls := foreign_calls s;
        error_object := error_object s;
        cerr := cerr s;
        reported := reported s ++ [sol] |}, Normal tt).

(** Code that touches nothing of the process: it only ends, with a value,
    with an exception, or undefined. *)
Definition evaluated {A : Type} (o : outcome A) : M A := fun s => (s, o).

(** A computation that only records calls into the interpreter: the calls
    it records and the way it ends do not depend on the state it starts in. *)
Definition appends {A : Type} (m : M A) : Prop :=
  exists new r, forall s, m s = (add_calls new s, r).

(* ===================================================================== *)
(** ** The solver bridge: [run_dwave_solver] *)
(* ===================================================================== *)

(** [struct DWaveResult] of dwave_bridge.h. *)
Record DWaveResult : Type := {
  best_sample : list Z;
  best_weight : double
}.

(** [result.best_sample.clear(); result.best_weight = 0.0;] *)
Definition cleared : DWaveResult :=
  {| best_sample := []; best_weight := zero |}.

Definition unknown_exception_text : string :=
  "Unknown exception in run_dwave_solver".

Definition runtime_disabled_text : string :=
  "D-Wave support not compiled (USE_DWAVE not defined)".

Section Bridge.

Variable py : Python.

(** [get_env()] (bridge, lines 34-46): the function-local static
    [PythonEnvironment env] is constructed on the first call that reaches
    it; a constructor that throws leaves it unconstructed and the exception
    leaves [get_env]. *)
Definition get_env : M unit :=
  fun s =>
    if interpreter_up s then (s, Normal tt)
    else
      match foreign Startup Initialize (py_initialize py) s with
      | (s', Normal _) =>
          ({| interpreter_up := true;
              bridge_requests := bridge_requests s';
              foreign_calls := foreign_calls s';
              error_object := error_object s';
              cerr := cerr s';
              reported := reported s' |}, Normal tt)
      | r => r
      end.

(** [py::gil_scoped_acquire gil;] at the top of the try block: acquired on
    entry, released when the block is left, normally or by an exception. *)
Definition gil_scoped_acquire {A : Type} (block : M A) : M A :=
  fun s =>
    let s1 := record_call {| ev_phase := Startup; ev_call := AcquireGIL; ev_raised := None |} s in
    let (s2, r) := block s1 in
    (record_call {| ev_phase := Startup; ev_call := ReleaseGIL; ev_raised := None |} s2, r).

(** Bridge, lines 84-88: [".venv/lib/pythonX.Y/site-packages"]. *)
Definition venv_site_path (major minor : Z) : string :=
  (".venv/lib/python" ++ to_string major ++ "." ++ to_string minor
     ++ "/site-packages")%string.

(** Bridge, lines 79-93: the body of the inner try block. *)
Definition venv_probe (sys sys_path : pyobj) : M unit :=
  os <- foreign VenvProbe (Import "os") (py_import py "os") ;;
  version_info <- foreign VenvProbe (GetAttr sys "version_info")
                    (py_getattr py sys "version_info") ;;
  major_obj <- foreign VenvProbe (GetAttr version_info "major")
                 (py_getattr py version_info "major") ;;
  major <- foreign VenvProbe (CastInt major_obj) (py_cast_int py major_obj) ;;
  minor_obj <- foreign VenvProbe (GetAttr version_info "minor")
                 (py_getattr py version_info "minor") ;;
  minor <- foreign VenvProbe (CastInt minor_obj) (py_cast_int py minor_obj) ;;
  let venv_site := venv_site_path major minor in
  os_path <- foreign VenvProbe (GetAttr os "path") (py_getattr py os "path") ;;
  isdir <- foreign VenvProbe (GetAttr os_path "isdir")
             (py_getattr py os_path "isdir") ;;
  answer <- foreign VenvProbe (Call isdir [PyStr venv_site])
              (py_call py isdir [PyStr venv_site]) ;;
  found <- foreign VenvProbe (CastBool answer) (py_cast_bool py answer) ;;
  if found
  then foreign VenvProbe (ListInsert sys_path 0 (PyStr venv_site))
         (py_list_insert py sys_path 0 (PyStr venv_site))
  else ret tt.

(** Bridge, lines 101-107: the term list as a Python list of 3-tuples. *)
Definition terms_to_py (qubo_terms : list term) : pyobj :=
  PyList (map (fun t => PyTuple [PyInt (row t); PyInt (col t); PyFloat (weight t)])
              qubo_terms).

(** Bridge, lines 109-114: the config argument handed to [solve_qubo]. *)
Definition cfg_path_obj (config_json_path : string) : pyobj :=
  if empty config_json_path then PyNone else PyStr config_json_path.

(** Bridge, lines 62-124: the body of the outer try block.  pybind11
    evaluates [attr] and [operator[]] when the accessor is converted to an
    object, which is where the calls are placed here.  Building the argument
    objects is taken as total: running out of memory is not modelled. *)
Definition try_block (qubo_terms : list term) (backend config_json_path : string)
    : M DWaveResult :=
  gil_scoped_acquire (
    sys <- foreign PathSetup (Import "sys") (py_import py "sys") ;;
    sys_path <- foreign PathSetup (GetAttr sys "path") (py_getattr py sys "path") ;;
    foreign PathSetup (ListInsert sys_path 0 (PyStr "python"))
      (py_list_insert py sys_path 0 (PyStr "python")) ;;;
    try_catch_std (venv_probe sys sys_path) (ret tt) ;;;
    m <- foreign ImportSolver (Import "mqlib_dwave") (py_import py "mqlib_dwave") ;;
    solve_qubo <- foreign ImportSolver (GetAttr m "solve_qubo")
                    (py_getattr py m "solve_qubo") ;;
    let terms_py := terms_to_py qubo_terms in
    let cfg := cfg_path_obj config_json_path in
    res <- foreign Invocation (Call solve_qubo [terms_py; PyStr backend; cfg])
             (py_call py solve_qubo [terms_py; PyStr backend; cfg]) ;;
    seq <- foreign Coercion (AsSequence res) (py_as_sequence py res) ;;
    sample_obj <- foreign Coercion (GetItem seq 0) (py_getitem py seq 0) ;;
    weight_obj <- foreign Coercion (GetItem seq 1) (py_getitem py seq 1) ;;
    sample <- foreign Coercion (CastVectorInt sample_obj)
                (py_cast_vector_int py sample_obj) ;;
    w <- foreign Coercion (CastDouble weight_obj) (py_cast_double py weight_obj) ;;
    ret {| best_sample := sample; best_weight := w |}).

(** The function compiled when [USE_DWAVE] is defined (bridge, lines
    48-140).  [get_env()] is called before the try block.  Both handlers
    overwrite both fields of [result], so whatever the try block had
    assigned before the exception is gone. *)
Definition run_dwave_solver_enabled (qubo_terms : list term)
    (backend config_json_path : string) (error_message : string_ptr)
    : M DWaveResult :=
  get_env ;;;
  (if non_null error_message then store error_message "" else ret tt) ;;;
  try_catch_all
    (try_block qubo_terms backend config_json_path)
    (fun what =>
       (if non_null error_message then store error_message what else ret tt) ;;;
       ret cleared)
    ((if non_null error_message
      then store error_message unknown_exception_text else ret tt) ;;;
     ret cleared).

(** The function compiled otherwise (bridge, lines 144-157). *)
Definition run_dwave_solver_disabled (qubo_terms : list term)
    (backend config_json_path : string) (error_message : string_ptr)
    : M DWaveResult :=
  (if non_null error_message
   then store error_message runtime_disabled_text else ret tt) ;;;
  ret cleared.

(** History only: the arguments a call of [run_dwave_solver] received. *)
Definition record_request (r : bridge_request) : M unit :=
  fun s =>
    ({| interpreter_up := interpreter_up s;
        bridge_requests := bridge_requests s ++ [r];
        foreign_calls := foreign_calls s;
        error_object := error_object s;
        cerr := cerr s;
        reported := reported s |}, Normal tt).

(** [run_dwave_solver], for either setting of the build flag. *)
Definition run_dwave_solver (USE_DWAVE : bool) (qubo_terms : list term)
    (backend config_json_path : string) (error_message : string_ptr)
    : M DWaveResult :=
  record_request {| req_terms := qubo_terms; req_backend := backend;
                    req_config := config_json_path;
                    req_error_message := error_message |} ;;;
  if USE_DWAVE
  then run_dwave_solver_enabled qubo_terms backend config_json_path error_message
  else run_dwave_solver_disabled qubo_terms backend config_json_path error_message.

(* ===================================================================== *)
(** ** The backend adapters *)
(* ===================================================================== *)

Variable USE_DWAVE : bool.

(** [std::string error;] a fresh, empty string object. *)
Definition declare_error : M unit := store address_of_error "".

Definition read_error : M string := fun s => (s, Normal (error_object s)).

(** [DWaveQPU::DWaveQPU] (dwave_qpu.cpp, lines 8-56). *)
Definition DWaveQPU (qi : QUBOInstance) (runtime_limit : double)
    (validation : bool) (qc : option nat) : M unit :=
  let this := {| h_instance := qi; h_runtime_limit := runtime_limit;
                 h_validation := validation; h_callback := qc |} in
  terms <- evaluated (DWaveQPU_src.build_terms qi) ;;
  declare_error ;;;
  res <- run_dwave_solver USE_DWAVE terms "qpu" "" address_of_error ;;
  error <- read_error ;;
  if negb (empty error) then
    write_cerr ("DWaveQPU error: " ++ error)%string
  else if vempty (best_sample res) then
    write_cerr "DWaveQPU: no sample returned"
  else
    let sol := {| sol_assignments := best_sample res; sol_instance := qi;
                  sol_heuristic := this |} in
    Report sol.

(** [DWaveSA::DWaveSA] (dwave_qpu.cpp, lines 64-108). *)
Definition DWaveSA (qi : QUBOInstance) (runtime_limit : double)
    (validation : bool) (qc : option nat) : M unit :=
  let this := {| h_instance := qi; h_runtime_limit := runtime_limit;
                 h_validation := validation; h_callback := qc |} in
  terms <- evaluated (DWaveSA_src.build_terms qi) ;;
  declare_error ;;;
  res <- run_dwave_solver USE_DWAVE terms "sa" "" address_of_error ;;
  error <- read_error ;;
  if negb (empty error) then
    write_cerr ("DWaveSA error: " ++ error)%string
  else if vempty (best_sample res) then
    write_cerr "DWaveSA: no sample returned"
  else
    let sol := {| sol_assignments := best_sample res; sol_instance := qi;
                  sol_heuristic := this |} in
    Report sol.

End Bridge.

(* ===================================================================== *)
(** ** The specification's view *)
(* ===================================================================== *)

Module Spec.

(** The Term Extractor of the specification: the term list of an instance.
    There is none when reserving room for it throws (size plus edge count
    negative), nor for an instance with fewer linear weights than its size
    (the loops would read outside the vector). *)
Definition extract (qi : QUBOInstance) : outcome (list term) :=
  if reserve_throws (get_size qi + get_edge_count qi)
  then Exceptional length_error
  else if (Z.to_nat (get_size qi) <=? List.length (get_lin qi))%nat
       then Normal (TermSpec.term_list qi)
       else Undefined.

(** The single parameterized adapter of the specification: the adapter
    name (for diagnostics) and the backend name are its only parameters
    besides those of the constructors. *)
Definition backend_adapter (name backend : string) (py : Python)
    (USE_DWAVE : bool) (qi : QUBOInstance) (runtime_limit : double)
    (validation : bool) (qc : option nat) : M unit :=
  let this := {| h_instance := qi; h_runtime_limit := runtime_limit;
                 h_validation := validation; h_callback := qc |} in
  terms <- evaluated (extract qi) ;;
  declare_error ;;;
  res <- run_dwave_solver py USE_DWAVE terms backend "" address_of_error ;;
  error <- read_error ;;
  if negb (empty error) then
    write_cerr (name ++ " error: " ++ error)%string
  else if vempty (best_sample res) then
    write_cerr (name ++ ": no sample returned")%string
  else
    Report {| sol_assignments := best_sample res; sol_instance := qi;
              sol_heuristic := this |}.

(** The contract of [invoke] takes an optional config path; the C++
    signature takes a [std::string], and dwave_bridge.h (lines 19-20) has
    the caller pass the empty string when there is no path, as both
    adapters do with [std::string()]. *)
Definition config_argument (config_path : option string) : string :=
  match config_path with
  | None => ""
  | Some path => path
  end.

(** What the external solver receives as its config argument. *)
Definition solver_config (config_path : option string) : pyobj :=
  cfg_path_obj (config_argument config_path).

(** The text a handler of [run_dwave_solver] has for an exception. *)
Definition exception_text (e : exn) : string :=
  match e with
  | StdException what => what
  | OtherException => unknown_exception_text
  end.

(** A raised exception that the inner handler of the .venv block stops:
    one derived from [std::exception], raised inside that block. *)
Definition swallowed (ev : event) : bool :=
  match ev_phase ev, ev_raised ev with
  | VenvProbe, Some (StdException _) => true
  | _, _ => false
  end.

(** The exceptions, among the recorded calls, that no inner handler stops. *)
Definition escaping (calls : list event) : list exn :=
  flat_map (fun ev =>
              match ev_raised ev with
              | Some e => if swallowed ev then [] else [e]
              | None => []
              end) calls.

(** The calls of the external solver among the recorded calls. *)
Definition invocations (calls : list event) : list foreign_call :=
  flat_map (fun ev =>
              match ev_phase ev with
              | Invocation => [ev_call ev]
              | _ => []
              end) calls.

(** The diagnostic line of an adapter for what the bridge gave back. *)
Definition diagnostic (name error : string) : string :=
  if negb (empty error)
  then (name ++ " error: " ++ error)%string
  else (name ++ ": no sample returned")%string.

(** The two backend adapters. *)
Inductive adapter : Type := QPU | SA.

Definition name_of (a : adapter) : string :=
  match a with QPU => "DWaveQPU" | SA => "DWaveSA" end.

Definition backend_of (a : adapter) : string :=
  match a with QPU => "qpu" | SA => "sa" end.

(** The constructor of an adapter, and the term list its loops build. *)
Definition construct (a : adapter) :
    Python -> bool -> QUBOInstance -> double -> bool -> option nat -> M unit :=
  match a with QPU => DWaveQPU | SA => DWaveSA end.

Definition build_terms_of (a : adapter) : QUBOInstance -> outcome (list term) :=
  match a with
  | QPU => DWaveQPU_src.build_terms
  | SA => DWaveSA_src.build_terms
  end.

(** The one call of the bridge an adapter makes for the terms it built:
    its fixed backend name, no config path, the address of its own, empty,
    [error] string. *)
Definition bridge_call (a : adapter) (py : Python) (USE_DWAVE : bool)
    (terms : list term) (s : process) : process * outcome DWaveResult :=
  run_dwave_solver py USE_DWAVE terms (backend_of a) "" address_of_error
    (fst (declare_error s)).

(** The solution an adapter constructs from a returned assignment. *)
Definition solution_of (qi : QUBOInstance) (runtime_limit : double)
    (validation : bool) (qc : option nat) (assignment : list Z) : QUBOSolution :=
  {| sol_assignments := assignment;
     sol_instance := qi;
     sol_heuristic := {| h_instance := qi; h_runtime_limit := runtime_limit;
                         h_validation := validation; h_callback := qc |} |}.

End Spec.

(* ===================================================================== *)
(** ** Test doubles for the interpreter *)
(* ===================================================================== *)

Module Stub.

Definition cast_error : exn :=
  StdException "Unable to cast Python instance to C++ type".

Definition getitem (o : pyobj) (index : Z) : raised pyobj :=
  match o with
  | PyTuple items | PyList items =>
      match nth_error items (Z.to_nat index) with
      | Some x => Returns x
      | None => Raises (StdException "IndexError: index out of range")
      end
  | _ => Raises (StdException "TypeError: object is not subscriptable")
  end.

Fixpoint ints (items : list pyobj) : raised (list Z) :=
  match items with
  | [] => Returns []
  | PyInt n :: rest =>
      match ints rest with
      | Returns ns => Returns (n :: ns)
      | Raises e => Raises e
      end
  | _ :: _ => Raises cast_error
  end.

(** An interpreter in which everything works except, possibly, the import
    of [os] and the call of [solve_qubo], whose outcomes are given. *)
Definition python (import_os : raised pyobj) (solve : raised pyobj) : Python :=
  {| py_initialize := Returns tt;
     py_import := fun name =>
       if String.eqb name "os" then import_os else Returns (PyHandle name);
     py_getattr := fun _ name =>
       if String.eqb name "major" then Returns (PyInt 3)
       else if String.eqb name "minor" then Returns (PyInt 12)
       else Returns (PyHandle name);
     py_list_insert := fun _ _ _ => Returns tt;
     py_call := fun f _ =>
       match f with
       | PyHandle name =>
           if String.eqb name "solve_qubo" then solve else Returns (PyHandle "False")
       | _ => Raises (StdException "TypeError: object is not callable")
       end;
     py_as_sequence := fun o =>
       match o with
       | PyTuple _ | PyList _ => Returns o
       | _ => Raises (StdException "Object is not an instance of 'sequence'")
       end;
     py_getitem := getitem;
     py_cast_int := fun o =>
       match o with PyInt n => Returns n | _ => Raises cast_error end;
     py_cast_bool := fun o =>
       match o with
       | PyHandle name => Returns (String.eqb name "True")
       | _ => Raises cast_error
       end;
     py_cast_vector_int := fun o =>
       match o with PyList items => ints items | _ => Raises cast_error end;
     py_cast_double := fun o =>
       match o with PyFloat x => Returns x | _ => Raises cast_error end |}.

Definition os_module : raised pyobj := Returns (PyHandle "os").

(** [solve_qubo] returns [([1, 0, 1], -0.5)]. *)
Definition answers : Python :=
  python os_module
    (Returns (PyTuple [PyList [PyInt 1; PyInt 0; PyInt 1]; PyFloat d_m0_5])).

(** [solve_qubo] raises a generic error "timeout". *)
Definition times_out : Python :=
  python os_module (Raises (StdException "timeout")).

(** The import of [os] fails inside the .venv block; [solve_qubo] answers. *)
Definition without_os : Python :=
  python (Raises (StdException "No module named 'os'"))
    (Returns (PyTuple [PyList [PyInt 1; PyInt 0; PyInt 1]; PyFloat d_m0_5])).

(** [solve_qubo] returns an assignment with a single entry. *)
Definition short_answer : Python :=
  python os_module (Returns (PyTuple [PyList [PyInt 1]; PyFloat d_m0_5])).

(** [solve_qubo] returns an empty assignment. *)
Definition empty_answer : Python :=
  python os_module (Returns (PyTuple [PyList []; PyFloat d_m0_5])).

(** An interpreter that cannot be constructed: the constructor of
    [py::scoped_interpreter] throws. *)
Definition no_interpreter : Python :=
  {| py_initialize := Raises (StdException "The interpreter is already running");
     py_import := py_import answers;
     py_getattr := py_getattr answers;
     py_list_insert := py_list_insert answers;
     py_call := py_call answers;
     py_as_sequence := py_as_sequence answers;
     py_getitem := py_getitem answers;
     py_cast_int := py_cast_int answers;
     py_cast_bool := py_cast_bool answers;
     py_cast_vector_int := py_cast_vector_int answers;
     py_cast_double := py_cast_double answers |}.

End Stub.

(** An instance whose iterator gives a pair with the larger index first:
    size 2, linear weights [1.0, 0.0], one entry [(1,0) = 3.5]. *)
Definition reversed_pair : QUBOInstance :=
  {| get_size := 2;
     get_lin := [d_1_0; zero];
     get_all_nonzero := [((1, 0), d_3_5)] |}.

(* ===================================================================== *)
(** ** Reading the record of foreign calls *)
(* ===================================================================== *)

Module Trace.

(** Construction of the interpreter and the two GIL operations, as opposed
    to the work done inside the interpreter. *)
Definition lifecycle (c : foreign_call) : bool :=
  match c with
  | Initialize | AcquireGIL | ReleaseGIL => true
  | _ => false
  end.

Definition interpreter_work (ev : event) : Prop :=
  lifecycle (ev_call ev) = false.

(** The constructions of the interpreter among the recorded calls. *)
Definition initializations (calls : list event) : list event :=
  filter (fun ev => match ev_call ev with Initialize => true | _ => false end)
         calls.

(** The insertions into [sys.path] that returned: position and entry. *)
Definition path_inserts (calls : list event) : list (Z * pyobj) :=
  flat_map (fun ev =>
              match ev_call ev, ev_raised ev with
              | ListInsert _ index item, None => [(index, item)]
              | _, _ => []
              end) calls.

Definition gil_acquired : event :=
  {| ev_phase := Startup; ev_call := AcquireGIL; ev_raised := None |}.

Definition gil_released : event :=
  {| ev_phase := Startup; ev_call := ReleaseGIL; ev_raised := None |}.

(** A computation that only records calls, all of them satisfying [P],
    whatever the state it starts in. *)
Definition records {A : Type} (P : event -> Prop) (m : M A) : Prop :=
  exists new r, Forall P new /\ forall s, m s = (add_calls new s, r).

End Trace.

(* ===================================================================== *)
(** ** Term extraction: the loops compute the specified list *)
(* ===================================================================== *)

Lemma ne_zero_false (w : double) :
  ne w zero = false <-> exists sgn, w = S754_zero sgn.
Proof.
  unfold ne, zero, SFeqb; split.
  - destruct w as [sgn | sgn | | sgn m e]; cbn.
    + intros _; now exists sgn.
    + destruct sgn; discriminate.
    + discriminate.
    + destruct sgn; discriminate.
  - intros [sgn ->]; reflexivity.
Qed.

Lemma ne_zero_true (w : double) :
  ne w zero = true <-> forall sgn, w <> S754_zero sgn.
Proof.
  split.
  - intros H sgn ->. discriminate H.
  - intros H. destruct (ne w zero) eqn:E; [reflexivity|].
    apply ne_zero_false in E. destruct E as [sgn ->]. now destruct (H sgn).
Qed.

Section Loops.

Variable lin : list double.

Let mk (i : nat) : term := (Z.of_nat i, Z.of_nat i, nth i lin zero).
Let nz (i : nat) : bool := ne (nth i lin zero) zero.

Lemma qpu_diagonal_loop_run :
  forall (k a : nat) (terms : list term),
    (a <= List.length lin)%nat ->
    DWaveQPU_src.diagonal_loop k (Z.of_nat a) lin terms =
    if (a + k <=? List.length lin)%nat
    then Some (terms ++ map mk (filter nz (seq a k)))
    else None.
Proof.
  induction k as [|k IH]; intros a terms Ha; cbn [DWaveQPU_src.diagonal_loop].
  - rewrite Nat.add_0_r. apply Nat.leb_le in Ha. rewrite Ha.
    cbn. now rewrite app_nil_r.
  - rewrite Nat2Z.id.
    destruct (nth_error lin a) as [w|] eqn:Hw.
    + assert (Hlt : (a < List.length lin)%nat)
        by (apply nth_error_Some; congruence).
      replace (Z.of_nat a + 1) with (Z.of_nat (S a)) by lia.
      rewrite IH by lia.
      replace (S a + k)%nat with (a + S k)%nat by lia.
      destruct (a + S k <=? List.length lin)%nat; [|reflexivity].
      assert (Hn : nth a lin zero = w) by (now apply nth_error_nth).
      cbn [seq filter]. unfold nz at 2. rewrite Hn.
      destruct (ne w zero); [|reflexivity].
      cbn [map]. unfold mk at 2. rewrite Hn.
      now rewrite <- app_assoc.
    + apply nth_error_None in Hw.
      destruct (Nat.leb_spec (a + S k) (List.length lin)); [lia|reflexivity].
Qed.

Lemma sa_diagonal_loop_same :
  forall (k : nat) (i : Z) (terms : list term),
    DWaveSA_src.diagonal_loop k i lin terms =
    DWaveQPU_src.diagonal_loop k i lin terms.
Proof.
  induction k as [|k IH]; intros i terms; cbn; [reflexivity|].
  destruct (nth_error lin (Z.to_nat i)); [apply IH|reflexivity].
Qed.

Lemma diagonal_indices_increasing :
  forall (k a : nat),
    StronglySorted Z.lt (map row (map mk (filter nz (seq a k)))).
Proof.
  induction k as [|k IH]; intros a; cbn [seq filter].
  - constructor.
  - destruct (nz a); [|apply IH].
    cbn [map]. constructor; [apply IH|].
    apply Forall_forall. intros x Hx.
    apply in_map_iff in Hx. destruct Hx as (t & <- & Ht).
    apply in_map_iff in Ht. destruct Ht as (i & <- & Hi).
    apply filter_In in Hi. destruct Hi as [Hi _].
    apply in_seq in Hi. unfold mk, row; cbn. lia.
Qed.

End Loops.

Lemma qpu_offdiagonal_loop_run :
  forall (it : list ((Z * Z) * double)) (terms : list term),
    DWaveQPU_src.offdiagonal_loop it terms =
    terms ++ map (fun entry => (fst (fst entry), snd (fst entry), snd entry))
                 (filter (fun entry => ne (snd entry) zero) it).
Proof.
  induction it as [|entry it IH]; intros terms; cbn.
  - now rewrite app_nil_r.
  - rewrite IH. destruct (ne (snd entry) zero); [|reflexivity].
    cbn. now rewrite <- app_assoc.
Qed.

Lemma sa_offdiagonal_loop_same :
  forall (it : list ((Z * Z) * double)) (terms : list term),
    DWaveSA_src.offdiagonal_loop it terms =
    DWaveQPU_src.offdiagonal_loop it terms.
Proof.
  induction it as [|entry it IH]; intros terms; cbn; apply IH || reflexivity.
Qed.

(** Both constructors compute the specified term list, for every instance. *)
Lemma qpu_build_terms_extract (qi : QUBOInstance) :
  DWaveQPU_src.build_terms qi = Spec.extract qi.
Proof.
  unfold DWaveQPU_src.build_terms, Spec.extract.
  destruct (reserve_throws _); [reflexivity|].
  change 0 with (Z.of_nat 0).
  rewrite qpu_diagonal_loop_run by lia.
  cbn [Nat.add].
  destruct (Z.to_nat (get_size qi) <=? List.length (get_lin qi))%nat;
    [|reflexivity].
  rewrite qpu_offdiagonal_loop_run. reflexivity.
Qed.

Lemma sa_build_terms_extract (qi : QUBOInstance) :
  DWaveSA_src.build_terms qi = Spec.extract qi.
Proof.
  rewrite <- qpu_build_terms_extract.
  unfold DWaveSA_src.build_terms, DWaveQPU_src.build_terms.
  destruct (reserve_throws _); [reflexivity|].
  rewrite sa_diagonal_loop_same.
  destruct (DWaveQPU_src.diagonal_loop _ _ _ _); [|reflexivity].
  now rewrite sa_offdiagonal_loop_same.
Qed.

Lemma extract_well_formed (qi : QUBOInstance) :
  well_formed qi -> Spec.extract qi = Normal (TermSpec.term_list qi).
Proof.
  unfold well_formed, Spec.extract, reserve_throws, get_edge_count. intros H.
  destruct (Z.ltb_spec (get_size qi +
                        Z.of_nat (List.length (get_all_nonzero qi))) 0);
    [lia|].
  destruct (Nat.leb_spec (Z.to_nat (get_size qi)) (List.length (get_lin qi)));
    [reflexivity|lia].
Qed.

Lemma term_list_nonzero (qi : QUBOInstance) (t : term) :
  In t (TermSpec.term_list qi) -> ne (weight t) zero = true.
Proof.
  unfold TermSpec.term_list, TermSpec.diagonal_terms, TermSpec.offdiagonal_terms.
  intros H. apply in_app_or in H.
  destruct H as [H|H]; apply in_map_iff in H; destruct H as (x & <- & Hx);
    apply filter_In in Hx; apply Hx.
Qed.

Lemma term_list_length (qi : QUBOInstance) :
  (List.length (TermSpec.term_list qi) <=
   Z.to_nat (get_size qi) + List.length (get_all_nonzero qi))%nat.
Proof.
  unfold TermSpec.term_list, TermSpec.diagonal_terms, TermSpec.offdiagonal_terms,
    TermSpec.indices.
  rewrite length_app, !length_map.
  pose proof (filter_length_le
    (fun i => ne (TermSpec.linear_weight qi i) zero)
    (seq 0 (Z.to_nat (get_size qi)))) as H1.
  pose proof (filter_length_le
    (fun entry : Z * Z * double => ne (snd entry) zero)
    (get_all_nonzero qi)) as H2.
  rewrite length_seq in H1. lia.
Qed.

Lemma diagonal_terms_member (qi : QUBOInstance) (i j : Z) (w : double) :
  well_formed qi ->
  In (i, j, w) (TermSpec.diagonal_terms qi) <->
  i = j /\ 0 <= i < get_size qi /\
  nth_error (get_lin qi) (Z.to_nat i) = Some w /\ ne w zero = true.
Proof.
  unfold well_formed, TermSpec.diagonal_terms, TermSpec.indices,
    TermSpec.linear_weight.
  intros Hwf. rewrite in_map_iff. split.
  - intros (a & Ht & Ha). apply filter_In in Ha. destruct Ha as [Ha Hnz].
    apply in_seq in Ha. injection Ht as <- <- <-.
    rewrite Nat2Z.id. repeat split; try lia; [|exact Hnz].
    apply nth_error_nth'. lia.
  - intros (<- & Hi & Hw & Hnz). exists (Z.to_nat i).
    rewrite Z2Nat.id by lia.
    rewrite (nth_error_nth _ _ zero Hw). split; [reflexivity|].
    apply filter_In. split; [apply in_seq; lia|].
    now rewrite (nth_error_nth _ _ zero Hw).
Qed.

(** C4: for every instance (with one linear weight per variable), the term
    list both adapters build is the diagonal triples [(i, i, w)], one for
    each index [i] with nonzero linear weight [w], in increasing order of
    [i], followed by one triple [(i, j, w)] for each nonzero entry of the
    off-diagonal iterator, in the iterator's order.  No emitted weight is a
    floating-point zero, and the list has at most [size + edge count]
    entries.  For the scenario instance the list is
    [(0,0,1.0); (2,2,-2.0); (0,2,3.5)]. *)
Theorem adapter_term_list (qi : QUBOInstance) (Hwf : well_formed qi) :
  DWaveQPU_src.build_terms qi =
    Normal (TermSpec.diagonal_terms qi ++ TermSpec.offdiagonal_terms qi) /\
  DWaveSA_src.build_terms qi =
    Normal (TermSpec.diagonal_terms qi ++ TermSpec.offdiagonal_terms qi) /\
  (forall i j w,
      In (i, j, w) (TermSpec.diagonal_terms qi) <->
      i = j /\ 0 <= i < get_size qi /\
      nth_error (get_lin qi) (Z.to_nat i) = Some w /\ ne w zero = true) /\
  StronglySorted Z.lt (map row (TermSpec.diagonal_terms qi)) /\
  TermSpec.offdiagonal_terms qi =
    map (fun entry => (fst (fst entry), snd (fst entry), snd entry))
        (filter (fun entry => ne (snd entry) zero) (get_all_nonzero qi)) /\
  (forall t, In t (TermSpec.term_list qi) ->
             ne (weight t) zero = true /\ forall sgn, weight t <> S754_zero sgn) /\
  Z.of_nat (List.length (TermSpec.term_list qi)) <=
    get_size qi + get_edge_count qi /\
  DWaveQPU_src.build_terms scenario =
    Normal [(0, 0, d_1_0); (2, 2, d_m2_0); (0, 2, d_3_5)] /\
  DWaveSA_src.build_terms scenario =
    Normal [(0, 0, d_1_0); (2, 2, d_m2_0); (0, 2, d_3_5)].
Proof.
  split; [rewrite qpu_build_terms_extract; now apply extract_well_formed|].
  split; [rewrite sa_build_terms_extract; now apply extract_well_formed|].
  split; [intros i j w; now apply diagonal_terms_member|].
  split; [apply diagonal_indices_increasing|].
  split; [reflexivity|].
  split.
  { intros t Ht. pose proof (term_list_nonzero qi t Ht) as Hnz.
    split; [exact Hnz | now apply ne_zero_true]. }
  split.
  { pose proof (term_list_length qi) as H.
    unfold well_formed in Hwf. unfold get_edge_count. lia. }
  split; reflexivity.
Qed.

Lemma adapter_term_list_scenario :
  well_formed scenario /\
  DWaveQPU_src.build_terms scenario =
    Normal (TermSpec.diagonal_terms scenario ++ TermSpec.offdiagonal_terms scenario) /\
  TermSpec.diagonal_terms scenario ++ TermSpec.offdiagonal_terms scenario =
    [(0, 0, d_1_0); (2, 2, d_m2_0); (0, 2, d_3_5)].
Proof.
  split; [reflexivity|].
  split; [apply (adapter_term_list scenario); reflexivity | reflexivity].
Defined.

(* ===================================================================== *)
(** ** The bridge: what a call records and how it ends *)
(* ===================================================================== *)

Lemma escaping_app (a b : list event) :
  Spec.escaping (a ++ b) = Spec.escaping a ++ Spec.escaping b.
Proof. apply flat_map_app. Qed.

Lemma add_calls_add_calls (a b : list event) (s : process) :
  add_calls b (add_calls a s) = add_calls (a ++ b) s.
Proof. unfold add_calls; cbn. now rewrite app_assoc. Qed.

Arguments venv_site_path : simpl never.

(** One step of symbolic execution: case analysis on the outcome of the
    next call into the interpreter. *)
Ltac oracle_step :=
  match goal with
  | |- context [match ?r with Returns _ => _ | Raises _ => _ end] =>
      destruct r as [?|[?|]] eqn:?
  | |- context [if ?b then _ else _] => destruct b eqn:?
  end; cbn.

Ltac close_run :=
  repeat match goal with u : unit |- _ => destruct u end;
  rewrite ?add_calls_add_calls; cbn [app];
  eexists; eexists; split; [reflexivity|];
  split; [repeat constructor|]; cbn; auto.

Section BridgeFacts.

Variable py : Python.

Lemma venv_probe_guarded (sys sys_path : pyobj) (s : process) :
  exists new r,
    try_catch_std (venv_probe py sys sys_path) (ret tt) s = (add_calls new s, r) /\
    Forall (fun ev => ev_phase ev = VenvProbe) new /\
    (r = Normal tt /\ Spec.escaping new = [] \/
     r = Exceptional OtherException /\ Spec.escaping new = [OtherException]).
Proof.
  unfold try_catch_std, venv_probe, bind, foreign, record_call, ret.
  repeat oracle_step; close_run.
Qed.

Lemma invocations_app (a b : list event) :
  Spec.invocations (a ++ b) = Spec.invocations a ++ Spec.invocations b.
Proof. apply flat_map_app. Qed.

Lemma invocations_venv_probe (new : list event) :
  Forall (fun ev => ev_phase ev = VenvProbe) new -> Spec.invocations new = [].
Proof.
  induction 1 as [|ev new Hev _ IH]; [reflexivity|].
  cbn. rewrite Hev. exact IH.
Qed.

Arguments try_catch_std : simpl never.

(** The try block: what it records, what it hands to the solver, and the
    exception that leaves it, if any. *)
Lemma try_block_run (qubo_terms : list term) (backend config : string)
    (s : process) :
  exists new r,
    try_block py qubo_terms backend config s = (add_calls new s, r) /\
    Forall (fun c => exists f,
                c = Call f [terms_to_py qubo_terms; PyStr backend;
                            cfg_path_obj config])
           (Spec.invocations new) /\
    match r with
    | Normal _ => Spec.escaping new = []
    | Exceptional e => Spec.escaping new = [e]
    | Undefined => False
    end.
Proof.
  unfold try_block, gil_scoped_acquire, bind, foreign, record_call, ret.
  repeat oracle_step;
    try match goal with
        | |- context [try_catch_std (venv_probe _ ?a ?b) _ ?S] =>
            destruct (venv_probe_guarded a b S)
              as (pnew & pr & Hp & Hph & [[-> He]|[-> He]]);
            unfold ret in Hp; rewrite Hp; cbn
        end;
    rewrite ?add_calls_add_calls;
    (eexists; eexists; split; [reflexivity|]);
    rewrite ?invocations_app, ?escaping_app;
    rewrite ?(invocations_venv_probe _ Hph), ?He; cbn;
    (split; [repeat constructor; eexists; reflexivity | reflexivity]).
Qed.

Lemma add_calls_nil (s : process) : add_calls [] s = s.
Proof. destruct s; unfold add_calls; cbn. now rewrite app_nil_r. Qed.

Lemma appends_ret {A : Type} (a : A) : appends (ret a).
Proof. exists [], (Normal a). intros s. now rewrite add_calls_nil. Qed.

Lemma appends_foreign {A : Type} (ph : phase) (c : foreign_call) (r : raised A) :
  appends (foreign ph c r).
Proof.
  destruct r as [a|e]; eexists; eexists; intros s; reflexivity.
Qed.

Lemma appends_bind {A B : Type} (m : M A) (k : A -> M B) :
  appends m -> (forall a, appends (k a)) -> appends (bind m k).
Proof.
  intros (new & r & Hm) Hk. unfold bind.
  destruct r as [a| e |].
  - destruct (Hk a) as (new' & r' & Hk').
    exists (new ++ new'), r'. intros s.
    now rewrite Hm, Hk', add_calls_add_calls.
  - exists new, (Exceptional e). intros s. now rewrite Hm.
  - exists new, Undefined. intros s. now rewrite Hm.
Qed.

Lemma appends_try_catch_std {A : Type} (body on_std : M A) :
  appends body -> appends on_std -> appends (try_catch_std body on_std).
Proof.
  intros (new & r & Hm) (new' & r' & Hh). unfold try_catch_std.
  destruct r as [a| [what|] |].
  - exists new, (Normal a). intros s. now rewrite Hm.
  - exists (new ++ new'), r'. intros s.
    now rewrite Hm, Hh, add_calls_add_calls.
  - exists new, (Exceptional OtherException). intros s. now rewrite Hm.
  - exists new, Undefined. intros s. now rewrite Hm.
Qed.

Lemma appends_gil_scoped_acquire {A : Type} (block : M A) :
  appends block -> appends (gil_scoped_acquire block).
Proof.
  intros (new & r & Hm). unfold gil_scoped_acquire, record_call.
  eexists; exists r. intros s.
  rewrite Hm, !add_calls_add_calls. reflexivity.
Qed.

Create HintDb appends.
#[local] Hint Resolve appends_ret appends_foreign appends_try_catch_std
  appends_gil_scoped_acquire : appends.

Lemma appends_venv_probe (sys sys_path : pyobj) :
  appends (venv_probe py sys sys_path).
Proof.
  unfold venv_probe.
  repeat (apply appends_bind; [auto with appends|intros ?]).
  match goal with |- context [if ?b then _ else _] => destruct b end;
    auto with appends.
Qed.

Lemma appends_try_block (qubo_terms : list term) (backend config : string) :
  appends (try_block py qubo_terms backend config).
Proof.
  unfold try_block.
  apply appends_gil_scoped_acquire.
  repeat (apply appends_bind;
          [auto using appends_venv_probe with appends|intros ?]).
  auto with appends.
Qed.

(** The try block, whatever the state it starts in. *)
Lemma try_block_uniform (qubo_terms : list term) (backend config : string) :
  exists new r,
    (forall s, try_block py qubo_terms backend config s = (add_calls new s, r)) /\
    Forall (fun c => exists f,
                c = Call f [terms_to_py qubo_terms; PyStr backend;
                            cfg_path_obj config])
           (Spec.invocations new) /\
    match r with
    | Normal _ => Spec.escaping new = []
    | Exceptional e => Spec.escaping new = [e]
    | Undefined => False
    end.
Proof.
  destruct (appends_try_block qubo_terms backend config) as (new & r & H).
  destruct (try_block_run qubo_terms backend config initial_process)
    as (new' & r' & H' & Hinv & Hr).
  rewrite H in H'. injection H' as Hnew <-. cbn in Hnew. subst new'.
  now exists new, r.
Qed.

Arguments try_block : simpl never.

(** The enabled [run_dwave_solver]: either the interpreter cannot be
    constructed and that exception leaves the function, or the function
    returns; it returns the cleared result and the text of the exception
    exactly when an exception left the try block. *)
Lemma run_dwave_solver_enabled_run (qubo_terms : list term)
    (backend config : string) (error_message : string_ptr) (s : process) :
  exists new r,
    snd (run_dwave_solver_enabled py qubo_terms backend config error_message s) = r /\
    let s' := fst (run_dwave_solver_enabled py qubo_terms backend config
                     error_message s) in
    foreign_calls s' = foreign_calls s ++ new /\
    bridge_requests s' = bridge_requests s /\
    cerr s' = cerr s /\
    reported s' = reported s /\
    Forall (fun c => exists f,
                c = Call f [terms_to_py qubo_terms; PyStr backend;
                            cfg_path_obj config])
           (Spec.invocations new) /\
    ((interpreter_up s = false /\
      exists e, py_initialize py = Raises e /\ r = Exceptional e /\
                interpreter_up s' = false /\ error_object s' = error_object s)
     \/
     ((interpreter_up s = true \/ py_initialize py = Returns tt) /\
      interpreter_up s' = true /\
      exists res, r = Normal res /\
        match Spec.escaping new with
        | [] => error_object s' =
                  (if non_null error_message then "" else error_object s)
        | e :: rest =>
            rest = [] /\ res = cleared /\
            error_object s' =
              (if non_null error_message then Spec.exception_text e
               else error_object s)
        end)).
Proof.
  unfold run_dwave_solver_enabled, get_env, bind, foreign, record_call,
    try_catch_all.
  destruct (interpreter_up s) eqn:Hup;
    [|destruct (py_initialize py) as [[]|e] eqn:Hinit];
    destruct error_message; cbn [non_null]; unfold store, ret;
    try match goal with
        | |- context [try_block py ?t ?b ?c ?S] =>
            destruct (try_block_run t b c S) as (new & r & Hrun & Hinv & Hr);
            rewrite Hrun
        end.
  all: try (destruct r as [res|[w|]|]; [ | | |contradiction]).
  all: cbn; eexists; eexists; (split; [reflexivity|]); cbn.
  all: (split; [rewrite <- ?app_assoc; try reflexivity;
                try (rewrite <- (app_nil_r (foreign_calls s)) at 1; reflexivity)|]).
  all: repeat (split; [reflexivity|]).
  all: rewrite ?escaping_app, ?invocations_app, ?Hr; cbn.
  all: (split; [try exact Hinv; try constructor |]).
  all: first
    [ solve [ right; split; [auto|]; split; [assumption || reflexivity|];
              eexists; split; [reflexivity|]; cbn; auto ]
    | left; split; [reflexivity|]; eexists; repeat split; auto ].
Qed.

Lemma in_escaping (calls : list event) (ev : event) (e : exn) :
  In ev calls -> ev_raised ev = Some e -> Spec.swallowed ev = false ->
  In e (Spec.escaping calls).
Proof.
  intros Hin Hraised Hsw. unfold Spec.escaping.
  apply in_flat_map. exists ev. split; [exact Hin|].
  rewrite Hraised, Hsw. now left.
Qed.

(** [run_dwave_solver] is the compiled branch, once its arguments are noted. *)
Lemma run_dwave_solver_branch (USE_DWAVE : bool) (qubo_terms : list term)
    (backend config : string) (error_message : string_ptr) (s : process) :
  run_dwave_solver py USE_DWAVE qubo_terms backend config error_message s =
  (if USE_DWAVE
   then run_dwave_solver_enabled py qubo_terms backend config error_message
   else run_dwave_solver_disabled qubo_terms backend config error_message)
    (fst (record_request
            {| req_terms := qubo_terms; req_backend := backend;
               req_config := config; req_error_message := error_message |} s)).
Proof. reflexivity. Qed.

(** What a call of [run_dwave_solver] leaves alone, in either build. *)
Lemma run_dwave_solver_frame (USE_DWAVE : bool) (qubo_terms : list term)
    (backend config : string) (error_message : string_ptr) (s : process) :
  let run := run_dwave_solver py USE_DWAVE qubo_terms backend config
               error_message s in
  cerr (fst run) = cerr s /\
  reported (fst run) = reported s /\
  bridge_requests (fst run) =
    bridge_requests s ++
    [{| req_terms := qubo_terms; req_backend := backend;
        req_config := config; req_error_message := error_message |}] /\
  snd run <> Undefined.
Proof.
  cbv zeta. rewrite run_dwave_solver_branch. destruct USE_DWAVE.
  - match goal with
    | |- context [run_dwave_solver_enabled py ?t ?b ?c ?e ?S] =>
        destruct (run_dwave_solver_enabled_run t b c e S)
          as (new & r & Hr & _ & Hreq & Hcerr & Hrep & _ & Hcase)
    end.
    rewrite Hcerr, Hrep, Hreq, Hr. repeat split.
    destruct Hcase as [(_ & e & _ & -> & _)|(_ & _ & res & -> & _)];
      discriminate.
  - destruct error_message; cbn; repeat split; discriminate.
Qed.

End BridgeFacts.

(* ===================================================================== *)
(** ** The bridge: the claims *)
(* ===================================================================== *)

(** C2: in a build without [USE_DWAVE], every call of [run_dwave_solver],
    whatever the term list, the backend string and the config path, returns
    a result with an empty [best_sample], writes the RuntimeDisabled
    diagnostic through the error-message pointer (when it is not null), and
    makes no call into the foreign runtime: the record of foreign calls and
    the interpreter's state are as before the call. *)
Theorem disabled_build_returns_runtime_disabled
    (py : Python) (qubo_terms : list term) (backend config : string)
    (error_message : string_ptr) (s : process) :
  let run := run_dwave_solver py false qubo_terms backend config
               error_message s in
  (exists res, snd run = Normal res /\ best_sample res = []) /\
  foreign_calls (fst run) = foreign_calls s /\
  interpreter_up (fst run) = interpreter_up s /\
  error_object (fst run) =
    (if non_null error_message then runtime_disabled_text else error_object s) /\
  runtime_disabled_text = "D-Wave support not compiled (USE_DWAVE not defined)".
Proof.
  destruct error_message; cbn; repeat split; now exists cleared.
Qed.

(** C9: [run_dwave_solver] tolerates the null pointer.  In either build and
    on every path, a call with [error_message == nullptr] never dereferences
    it (the call does not end in undefined behaviour), leaves the caller's
    string untouched, makes the same foreign calls and ends the same way,
    with the same [DWaveResult], as the call with a non-null pointer. *)
Theorem null_error_message_is_tolerated
    (py : Python) (USE_DWAVE : bool) (qubo_terms : list term)
    (backend config : string) (s : process) :
  let with_null := run_dwave_solver py USE_DWAVE qubo_terms backend config
                     nullptr s in
  let with_pointer := run_dwave_solver py USE_DWAVE qubo_terms backend config
                        address_of_error s in
  snd with_null <> Undefined /\
  snd with_null = snd with_pointer /\
  error_object (fst with_null) = error_object s /\
  foreign_calls (fst with_null) = foreign_calls (fst with_pointer).
Proof.
  cbv zeta. rewrite !run_dwave_solver_branch. destruct USE_DWAVE.
  - unfold run_dwave_solver_enabled, get_env, bind, foreign, record_call,
      try_catch_all, store, ret.
    destruct (try_block_uniform py qubo_terms backend config)
      as (new & r & Hrun & _ & Hr).
    cbn [non_null fst snd record_request interpreter_up].
    destruct (interpreter_up s);
      [|destruct (py_initialize py) as [[]|e]];
      rewrite ?Hrun; cbn; try (repeat split; discriminate).
    all: rewrite ?Hrun; destruct r as [res|[what|]|]; try contradiction;
      cbn; repeat split; discriminate.
  - cbn. repeat split; discriminate.
Qed.

(** C1, as the code has it: in a build with [USE_DWAVE], once the
    interpreter is up (or its construction succeeds), [run_dwave_solver]
    always returns: no exception leaves it and nothing undefined happens.
    Every exception raised by a call into the interpreter during path
    setup, import, invocation or coercion, other than an exception derived
    from [std::exception] raised inside the best-effort .venv block, gives
    a result with an empty [best_sample] and, when the error-message
    pointer is not null, an error message equal to the exception's text
    (its [what()]; the fixed text of the catch-all handler for an exception
    that has none). *)
Theorem foreign_exception_becomes_error_result
    (py : Python) (qubo_terms : list term) (backend config : string)
    (error_message : string_ptr) (s : process)
    (Hinit : interpreter_up s = true \/ py_initialize py = Returns tt) :
  let run := run_dwave_solver py true qubo_terms backend config
               error_message s in
  exists res new,
    snd run = Normal res /\
    foreign_calls (fst run) = foreign_calls s ++ new /\
    forall ev e,
      In ev new -> ev_raised ev = Some e -> Spec.swallowed ev = false ->
      best_sample res = [] /\
      error_object (fst run) =
        (if non_null error_message then Spec.exception_text e
         else error_object s).
Proof.
  cbv zeta. rewrite run_dwave_solver_branch.
  match goal with
  | |- context [run_dwave_solver_enabled py ?t ?b ?c ?e ?S] =>
      destruct (run_dwave_solver_enabled_run py t b c e S)
        as (new & r & Hr & Hcalls & _ & _ & _ & _ & Hcase)
  end.
  cbv zeta in Hcalls.
  destruct Hcase as [(Hdown & e & Hraise & _)|(_ & _ & res & -> & Hesc)].
  - cbn in Hdown. destruct Hinit; congruence.
  - exists res, new. split; [exact Hr|]. split; [exact Hcalls|].
    intros ev e Hin Hraised Hsw.
    pose proof (in_escaping new ev e Hin Hraised Hsw) as He.
    destruct (Spec.escaping new) as [|e0 rest]; [contradiction|].
    destruct Hesc as (-> & -> & Herr).
    destruct He as [->|[]]. split; [reflexivity|exact Herr].
Qed.

Lemma foreign_exception_becomes_error_result_timeout :
  let run := run_dwave_solver Stub.times_out true
               [(0, 0, d_1_0); (2, 2, d_m2_0); (0, 2, d_3_5)] "qpu" ""
               address_of_error initial_process in
  (interpreter_up initial_process = true \/
   py_initialize Stub.times_out = Returns tt) /\
  snd run = Normal cleared /\
  error_object (fst run) = "timeout".
Proof.
  cbv zeta. split; [right; reflexivity|].
  destruct (foreign_exception_becomes_error_result Stub.times_out
              [(0, 0, d_1_0); (2, 2, d_m2_0); (0, 2, d_3_5)] "qpu" ""
              address_of_error initial_process (or_intror eq_refl))
    as (res & new & Hres & Hcalls & H).
  cbn in Hcalls. subst new.
  destruct (H {| ev_phase := Invocation;
                 ev_call := Call (PyHandle "solve_qubo")
                   [terms_to_py [(0, 0, d_1_0); (2, 2, d_m2_0); (0, 2, d_3_5)];
                    PyStr "qpu"; PyNone];
                 ev_raised := Some (StdException "timeout") |}
              (StdException "timeout")) as [_ Herr].
  - cbn. repeat (first [left; reflexivity | right]).
  - reflexivity.
  - reflexivity.
  - split; [reflexivity|exact Herr].
Defined.

(** C1, as stated, fails: an exception raised during path setup, by the
    import of [os] inside the .venv block, is neither reported nor does it
    empty the result. *)
Lemma venv_probe_exception_is_swallowed :
  let run := run_dwave_solver Stub.without_os true
               [(0, 0, d_1_0); (2, 2, d_m2_0); (0, 2, d_3_5)] "qpu" ""
               address_of_error initial_process in
  In {| ev_phase := VenvProbe; ev_call := Import "os";
        ev_raised := Some (StdException "No module named 'os'") |}
     (foreign_calls (fst run)) /\
  snd run = Normal {| best_sample := [1; 0; 1]; best_weight := d_m0_5 |} /\
  error_object (fst run) = "" /\
  error_object (fst run) <> "No module named 'os'".
Proof.
  cbv zeta. split; [|split; [|split]].
  - cbn. repeat (first [left; reflexivity | right]).
  - reflexivity.
  - reflexivity.
  - cbn. discriminate.
Qed.

(** C3, as the code has it: for the empty config path, which is how the
    C++ interface says that no path is given, the bridge hands Python's
    [None] to the solver, never an empty [str]; every other path is handed
    over as a [str], unchanged.  The solver can thus tell "no config" from
    every non-empty path, and what it receives determines the C++ argument;
    it is this object that the call of [solve_qubo] carries as its third
    argument. *)
Theorem config_sentinel_for_empty_path
    (py : Python) (qubo_terms : list term) (backend config : string)
    (error_message : string_ptr) (s : process) :
  let run := run_dwave_solver py true qubo_terms backend config
               error_message s in
  cfg_path_obj "" = PyNone /\
  (forall c rest, cfg_path_obj (String c rest) = PyStr (String c rest)) /\
  cfg_path_obj config <> PyStr "" /\
  (forall path, PyNone <> PyStr path) /\
  (forall a b, Spec.solver_config a = Spec.solver_config b <->
               Spec.config_argument a = Spec.config_argument b) /\
  exists new,
    foreign_calls (fst run) = foreign_calls s ++ new /\
    Forall (fun c => exists f,
                c = Call f [terms_to_py qubo_terms; PyStr backend;
                            cfg_path_obj config])
           (Spec.invocations new).
Proof.
  cbv zeta.
  split; [reflexivity|]. split; [reflexivity|].
  split; [destruct config; discriminate|].
  split; [discriminate|].
  split.
  - intros a b. unfold Spec.solver_config. split; [|now intros ->].
    destruct (Spec.config_argument a), (Spec.config_argument b); cbn;
      congruence.
  - rewrite run_dwave_solver_branch.
    match goal with
    | |- context [run_dwave_solver_enabled py ?t ?b ?c ?e ?S] =>
        destruct (run_dwave_solver_enabled_run py t b c e S)
          as (new & r & _ & Hcalls & _ & _ & _ & Hinv & _)
    end.
    exists new. split; [exact Hcalls|exact Hinv].
Qed.

(** C3, as stated, fails: an explicit empty-string path and no path at all
    reach the solver as the same object, [None]. *)
Lemma explicit_empty_path_is_sent_as_none :
  Spec.solver_config (Some "") = PyNone /\
  Spec.solver_config None = PyNone /\
  Some "" <> (None : option string).
Proof. repeat split; discriminate. Qed.

(* ===================================================================== *)
(** ** The adapters *)
(* ===================================================================== *)

Section AdapterFacts.

Variable py : Python.
Variable USE_DWAVE : bool.

(** Each constructor is the parameterized adapter at its two names. *)
Lemma DWaveQPU_parameterized (qi : QUBOInstance) (runtime_limit : double)
    (validation : bool) (qc : option nat) (s : process) :
  DWaveQPU py USE_DWAVE qi runtime_limit validation qc s =
  Spec.backend_adapter "DWaveQPU" "qpu" py USE_DWAVE qi runtime_limit
    validation qc s.
Proof.
  unfold DWaveQPU, Spec.backend_adapter.
  rewrite qpu_build_terms_extract. reflexivity.
Qed.

Lemma DWaveSA_parameterized (qi : QUBOInstance) (runtime_limit : double)
    (validation : bool) (qc : option nat) (s : process) :
  DWaveSA py USE_DWAVE qi runtime_limit validation qc s =
  Spec.backend_adapter "DWaveSA" "sa" py USE_DWAVE qi runtime_limit
    validation qc s.
Proof.
  unfold DWaveSA, Spec.backend_adapter.
  rewrite sa_build_terms_extract. reflexivity.
Qed.

(** The parameterized adapter, step by step: the bridge is called once, on
    the extracted terms, and what it gives back decides between the
    diagnostic and the report. *)
Lemma backend_adapter_run (name backend : string) (qi : QUBOInstance)
    (runtime_limit : double) (validation : bool) (qc : option nat)
    (s : process) :
  let this := {| h_instance := qi; h_runtime_limit := runtime_limit;
                 h_validation := validation; h_callback := qc |} in
  let run := Spec.backend_adapter name backend py USE_DWAVE qi runtime_limit
               validation qc s in
  match Spec.extract qi with
  | Exceptional thrown => run = (s, Exceptional thrown)
  | Undefined => run = (s, Undefined)
  | Normal terms =>
      let call := run_dwave_solver py USE_DWAVE terms backend ""
                    address_of_error (fst (declare_error s)) in
      match snd call with
      | Normal res =>
          let error := error_object (fst call) in
          if empty error && negb (vempty (best_sample res))
          then run = Report {| sol_assignments := best_sample res;
                               sol_instance := qi;
                               sol_heuristic := this |} (fst call)
          else run = write_cerr (Spec.diagnostic name error) (fst call)
      | Exceptional e => run = (fst call, Exceptional e)
      | Undefined => run = (fst call, Undefined)
      end
  end.
Proof.
  cbv zeta. unfold Spec.backend_adapter, bind, evaluated.
  destruct (Spec.extract qi) as [terms|thrown|]; [|reflexivity|reflexivity].
  cbn [declare_error store fst].
  match goal with
  | |- context [run_dwave_solver py USE_DWAVE terms backend "" ?e ?S] =>
      destruct (run_dwave_solver py USE_DWAVE terms backend "" e S)
        as [s1 [res|e1|]]
  end; cbn [fst snd read_error]; try reflexivity.
  unfold Spec.diagnostic.
  destruct (empty (error_object s1)); cbn [negb andb]; [|reflexivity].
  destruct (vempty (best_sample res)); reflexivity.
Qed.

End AdapterFacts.

Section AdapterClaims.

Import Spec.

Variable py : Python.
Variable USE_DWAVE : bool.

Lemma construct_parameterized (a : adapter) (qi : QUBOInstance)
    (runtime_limit : double) (validation : bool) (qc : option nat)
    (s : process) :
  construct a py USE_DWAVE qi runtime_limit validation qc s =
  backend_adapter (name_of a) (backend_of a) py USE_DWAVE qi runtime_limit
    validation qc s.
Proof.
  destruct a; [apply DWaveQPU_parameterized|apply DWaveSA_parameterized].
Qed.

Lemma build_terms_of_extract (a : adapter) (qi : QUBOInstance) :
  build_terms_of a qi = extract qi.
Proof.
  destruct a; [apply qpu_build_terms_extract|apply sa_build_terms_extract].
Qed.

(** An adapter, step by step, in terms of its one call of the bridge. *)
Lemma construct_run (a : adapter) (qi : QUBOInstance)
    (runtime_limit : double) (validation : bool) (qc : option nat)
    (s : process) :
  let run := construct a py USE_DWAVE qi runtime_limit validation qc s in
  match build_terms_of a qi with
  | Exceptional thrown => run = (s, Exceptional thrown)
  | Undefined => run = (s, Undefined)
  | Normal terms =>
      let call := bridge_call a py USE_DWAVE terms s in
      match snd call with
      | Normal res =>
          if empty (error_object (fst call)) && negb (vempty (best_sample res))
          then run = Report (solution_of qi runtime_limit validation qc
                               (best_sample res)) (fst call)
          else run = write_cerr (diagnostic (name_of a)
                                   (error_object (fst call))) (fst call)
      | Exceptional e => run = (fst call, Exceptional e)
      | Undefined => run = (fst call, Undefined)
      end
  end.
Proof.
  cbv zeta. rewrite construct_parameterized, build_terms_of_extract.
  apply (backend_adapter_run py USE_DWAVE).
Qed.

(** What the one call of the bridge leaves alone. *)
Lemma bridge_call_frame (a : adapter) (terms : list term) (s : process) :
  let call := bridge_call a py USE_DWAVE terms s in
  cerr (fst call) = cerr s /\
  reported (fst call) = reported s /\
  bridge_requests (fst call) =
    bridge_requests s ++
    [{| req_terms := terms; req_backend := backend_of a; req_config := "";
        req_error_message := address_of_error |}] /\
  snd call <> Undefined.
Proof.
  cbv zeta. unfold bridge_call.
  destruct (run_dwave_solver_frame py USE_DWAVE terms (backend_of a) ""
              address_of_error (fst (declare_error s)))
    as (Hcerr & Hrep & Hreq & Hub).
  cbv zeta in Hcerr, Hrep, Hreq, Hub.
  rewrite Hcerr, Hrep, Hreq. repeat split. exact Hub.
Qed.

(** The calls of the bridge and of the interpreter an adapter makes. *)
Lemma construct_history (a : adapter) (qi : QUBOInstance)
    (runtime_limit : double) (validation : bool) (qc : option nat)
    (s : process) :
  let run := construct a py USE_DWAVE qi runtime_limit validation qc s in
  match build_terms_of a qi with
  | Normal terms =>
      let call := bridge_call a py USE_DWAVE terms s in
      bridge_requests (fst run) = bridge_requests (fst call) /\
      foreign_calls (fst run) = foreign_calls (fst call)
  | _ => fst run = s
  end.
Proof.
  pose proof (construct_run a qi runtime_limit validation qc s) as H.
  cbv zeta in *.
  destruct (build_terms_of a qi) as [terms|thrown|];
    [|now rewrite H|now rewrite H].
  destruct (snd (bridge_call a py USE_DWAVE terms s)) as [res|e|];
    [|now rewrite H|now rewrite H].
  destruct (empty _ && negb _); now rewrite H.
Qed.

End AdapterClaims.

(* ===================================================================== *)
(** ** The adapters: the claims *)
(* ===================================================================== *)

Import Spec.

(** X15: for every invocation of either adapter, [Report] is called at most
    once; and whenever the bridge returns, the adapter ends normally, having
    either called [Report] once with the solution built from the returned
    assignment and written no diagnostic (exactly when the error message is
    empty and the assignment is not), or having written one diagnostic line
    that names the adapter and the reason and reported nothing. *)
Theorem report_once_and_only_on_success
    (a : adapter) (py : Python) (USE_DWAVE : bool) (qi : QUBOInstance)
    (runtime_limit : double) (validation : bool) (qc : option nat)
    (s : process) :
  let run := construct a py USE_DWAVE qi runtime_limit validation qc s in
  (exists sols, reported (fst run) = reported s ++ sols /\
                (List.length sols <= 1)%nat) /\
  (forall terms res,
      build_terms_of a qi = Normal terms ->
      let call := bridge_call a py USE_DWAVE terms s in
      snd call = Normal res ->
      snd run = Normal tt /\
      if empty (error_object (fst call)) && negb (vempty (best_sample res))
      then reported (fst run) =
             reported s ++ [solution_of qi runtime_limit validation qc
                              (best_sample res)] /\
           cerr (fst run) = cerr s
      else reported (fst run) = reported s /\
           cerr (fst run) =
             cerr s ++ [diagnostic (name_of a) (error_object (fst call))]) /\
  (forall error, diagnostic (name_of a) error =
                 if empty error
                 then (name_of a ++ ": no sample returned")%string
                 else (name_of a ++ " error: " ++ error)%string).
Proof.
  pose proof (construct_run py USE_DWAVE a qi runtime_limit validation qc s) as H.
  cbv zeta in *. split; [|split].
  - destruct (build_terms_of a qi) as [terms|thrown|];
      [|rewrite H; exists []; cbn; split; [now rewrite app_nil_r|lia]
       |rewrite H; exists []; cbn; split; [now rewrite app_nil_r|lia]].
    destruct (bridge_call_frame py USE_DWAVE a terms s) as (_ & Hrep & _).
    cbv zeta in Hrep.
    destruct (snd (bridge_call a py USE_DWAVE terms s)) as [res|e|].
    + destruct (empty _ && negb _); rewrite H; cbn [fst snd Report write_cerr reported cerr]; rewrite ?Hrep.
      * eexists; split; [reflexivity|cbn; lia].
      * exists []; cbn; split; [now rewrite app_nil_r|lia].
    + rewrite H; cbn [fst snd Report write_cerr reported cerr]; rewrite ?Hrep.
      exists []; cbn; split; [now rewrite app_nil_r|lia].
    + rewrite H; cbn [fst snd Report write_cerr reported cerr]; rewrite ?Hrep.
      exists []; cbn; split; [now rewrite app_nil_r|lia].
  - intros terms res Hterms Hcall. rewrite Hterms, Hcall in H.
    destruct (bridge_call_frame py USE_DWAVE a terms s) as (Hcerr & Hrep & _).
    cbv zeta in Hcerr, Hrep.
    destruct (empty _ && negb _); rewrite H; cbn [fst snd Report write_cerr reported cerr]; rewrite Hrep, Hcerr;
      repeat split.
  - intros error. unfold diagnostic. now destruct (empty error).
Qed.

(** C5, as the code has it: when the bridge returns an assignment of
    length 0, the adapter reports nothing and writes a diagnostic.  The
    length of a non-empty assignment is not compared with the size of the
    instance: returned with an empty error message, it is made into a
    solution and reported, whatever its length. *)
Theorem empty_assignment_is_a_failure
    (a : adapter) (py : Python) (USE_DWAVE : bool) (qi : QUBOInstance)
    (runtime_limit : double) (validation : bool) (qc : option nat)
    (s : process) (terms : list term) (res : DWaveResult)
    (Hterms : build_terms_of a qi = Normal terms)
    (Hcall : snd (bridge_call a py USE_DWAVE terms s) = Normal res) :
  let call := bridge_call a py USE_DWAVE terms s in
  let run := construct a py USE_DWAVE qi runtime_limit validation qc s in
  (best_sample res = [] ->
   snd run = Normal tt /\
   reported (fst run) = reported s /\
   cerr (fst run) =
     cerr s ++ [diagnostic (name_of a) (error_object (fst call))]) /\
  (best_sample res <> [] -> error_object (fst call) = "" ->
   snd run = Normal tt /\
   reported (fst run) =
     reported s ++ [solution_of qi runtime_limit validation qc
                      (best_sample res)]).
Proof.
  pose proof (construct_run py USE_DWAVE a qi runtime_limit validation qc s) as H.
  cbv zeta in *. rewrite Hterms, Hcall in H.
  destruct (bridge_call_frame py USE_DWAVE a terms s) as (Hcerr & Hrep & _).
  cbv zeta in Hcerr, Hrep.
  split.
  - intros Hempty. rewrite Hempty in H. cbn [vempty negb] in H.
    rewrite andb_false_r in H. rewrite H. cbn [fst snd Report write_cerr reported cerr]. rewrite Hrep, Hcerr.
    repeat split.
  - intros Hsome Herr. rewrite Herr in H.
    destruct (best_sample res) as [|x xs] eqn:Hs; [contradiction|].
    cbn [empty vempty negb andb] in H. rewrite H.
    cbn [fst snd Report write_cerr reported cerr]. rewrite Hrep. repeat split.
Qed.

Lemma empty_assignment_is_a_failure_stub :
  let run := construct SA Stub.empty_answer true scenario zero false None
               initial_process in
  build_terms_of SA scenario =
    Normal [(0, 0, d_1_0); (2, 2, d_m2_0); (0, 2, d_3_5)] /\
  snd (bridge_call SA Stub.empty_answer true
         [(0, 0, d_1_0); (2, 2, d_m2_0); (0, 2, d_3_5)] initial_process) =
    Normal {| best_sample := []; best_weight := d_m0_5 |} /\
  snd run = Normal tt /\
  reported (fst run) = [] /\
  cerr (fst run) = ["DWaveSA: no sample returned"].
Proof.
  cbv zeta. split; [reflexivity|]. split; [reflexivity|].
  pose proof (empty_assignment_is_a_failure SA Stub.empty_answer true
                scenario zero false None initial_process
                [(0, 0, d_1_0); (2, 2, d_m2_0); (0, 2, d_3_5)]
                {| best_sample := []; best_weight := d_m0_5 |}
                eq_refl eq_refl) as H.
  cbv zeta in H. destruct H as [H _].
  destruct (H eq_refl) as (Hrun & Hrep & Hcerr).
  split; [exact Hrun|]. split; [rewrite Hrep; reflexivity|].
  rewrite Hcerr. vm_compute. reflexivity.
Defined.

(** C5, as stated, fails: for the scenario instance, of size 3, an
    assignment of length 1 returned without error is reported. *)
Lemma short_assignment_is_reported :
  let run := DWaveSA Stub.short_answer true scenario zero false None
               initial_process in
  get_size scenario = 3 /\
  snd (bridge_call SA Stub.short_answer true
         [(0, 0, d_1_0); (2, 2, d_m2_0); (0, 2, d_3_5)] initial_process) =
    Normal {| best_sample := [1]; best_weight := d_m0_5 |} /\
  snd run = Normal tt /\
  map sol_assignments (reported (fst run)) = [[1]] /\
  cerr (fst run) = [].
Proof. cbv zeta. repeat split; vm_compute; reflexivity. Qed.

(** C7: the two constructors are the one parameterized adapter, at
    ["DWaveQPU"], ["qpu"] and at ["DWaveSA"], ["sa"]: apart from the backend
    name handed to the bridge and the adapter name in the diagnostics they
    behave alike.  For every instance they build equal term lists, and the
    calls of the bridge they make carry equal term lists, the same (empty)
    config path and the same error-message pointer. *)
Theorem adapters_differ_only_in_names
    (py : Python) (USE_DWAVE : bool) (qi : QUBOInstance)
    (runtime_limit : double) (validation : bool) (qc : option nat)
    (s : process) :
  let qpu := DWaveQPU py USE_DWAVE qi runtime_limit validation qc s in
  let sa := DWaveSA py USE_DWAVE qi runtime_limit validation qc s in
  qpu = backend_adapter "DWaveQPU" "qpu" py USE_DWAVE qi runtime_limit
          validation qc s /\
  sa = backend_adapter "DWaveSA" "sa" py USE_DWAVE qi runtime_limit
         validation qc s /\
  DWaveQPU_src.build_terms qi = DWaveSA_src.build_terms qi /\
  exists sent_qpu sent_sa,
    bridge_requests (fst qpu) = bridge_requests s ++ sent_qpu /\
    bridge_requests (fst sa) = bridge_requests s ++ sent_sa /\
    map req_terms sent_qpu = map req_terms sent_sa /\
    map req_config sent_qpu = map req_config sent_sa /\
    map req_error_message sent_qpu = map req_error_message sent_sa /\
    Forall (fun r => req_backend r = "qpu" /\ req_config r = "") sent_qpu /\
    Forall (fun r => req_backend r = "sa" /\ req_config r = "") sent_sa.
Proof.
  cbv zeta.
  split; [apply DWaveQPU_parameterized|].
  split; [apply DWaveSA_parameterized|].
  split; [now rewrite qpu_build_terms_extract, sa_build_terms_extract|].
  pose proof (construct_history py USE_DWAVE QPU qi runtime_limit validation
                qc s) as Hq.
  pose proof (construct_history py USE_DWAVE SA qi runtime_limit validation
                qc s) as Hs.
  cbv zeta in Hq, Hs. rewrite build_terms_of_extract in Hq, Hs.
  change (construct QPU) with DWaveQPU in Hq.
  change (construct SA) with DWaveSA in Hs.
  destruct (extract qi) as [terms|thrown|].
  - destruct Hq as [Hq _], Hs as [Hs _].
    destruct (bridge_call_frame py USE_DWAVE QPU terms s) as (_ & _ & Hrq & _).
    destruct (bridge_call_frame py USE_DWAVE SA terms s) as (_ & _ & Hrs & _).
    cbv zeta in Hrq, Hrs. rewrite Hrq in Hq. rewrite Hrs in Hs.
    eexists; eexists. split; [exact Hq|]. split; [exact Hs|].
    repeat split; repeat constructor.
  - exists [], []. rewrite Hq, Hs, app_nil_r.
    repeat split; constructor.
  - exists [], []. rewrite Hq, Hs, app_nil_r.
    repeat split; constructor.
Qed.

(** C10: what an adapter sends to the bridge depends on the instance only.
    Two invocations of the same adapter on the same instance, from the same
    state, that differ in the runtime limit, the validation flag or the
    callback pointer make the same calls of [run_dwave_solver], with the
    same arguments, and the same calls into the interpreter; the term list
    sent is the one built from the instance, the backend is the adapter's
    own, and the config path is empty. *)
Theorem bridge_arguments_depend_only_on_instance
    (a : adapter) (py : Python) (USE_DWAVE : bool) (qi : QUBOInstance)
    (runtime_limit runtime_limit' : double) (validation validation' : bool)
    (qc qc' : option nat) (s : process) :
  let run := construct a py USE_DWAVE qi runtime_limit validation qc s in
  let run' := construct a py USE_DWAVE qi runtime_limit' validation' qc' s in
  bridge_requests (fst run) = bridge_requests (fst run') /\
  foreign_calls (fst run) = foreign_calls (fst run') /\
  exists sent,
    bridge_requests (fst run) = bridge_requests s ++ sent /\
    Forall (fun r => build_terms_of a qi = Normal (req_terms r) /\
                     req_backend r = backend_of a /\
                     req_config r = "") sent.
Proof.
  pose proof (construct_history py USE_DWAVE a qi runtime_limit validation
                qc s) as H.
  pose proof (construct_history py USE_DWAVE a qi runtime_limit' validation'
                qc' s) as H'.
  cbv zeta in *.
  destruct (build_terms_of a qi) as [terms|thrown|].
  - destruct H as [Hr Hf], H' as [Hr' Hf'].
    rewrite Hr, Hr', Hf, Hf'.
    split; [reflexivity|]. split; [reflexivity|].
    destruct (bridge_call_frame py USE_DWAVE a terms s) as (_ & _ & Hreq & _).
    cbv zeta in Hreq. rewrite Hreq.
    eexists. split; [reflexivity|]. repeat constructor.
  - rewrite H, H'. split; [reflexivity|]. split; [reflexivity|].
    exists []. split; [now rewrite app_nil_r|constructor].
  - rewrite H, H'. split; [reflexivity|]. split; [reflexivity|].
    exists []. split; [now rewrite app_nil_r|constructor].
Qed.

(* ===================================================================== *)
(** ** The two scenarios of the specification, run *)
(* ===================================================================== *)

(** The stub solver answers [([1, 0, 1], -0.5)]: one solution, with that
    assignment, is reported and nothing is written to [std::cerr]. *)
Example scenario_answer_is_reported :
  let run := DWaveQPU Stub.answers true scenario zero false None
               initial_process in
  snd run = Normal tt /\
  map sol_assignments (reported (fst run)) = [[1; 0; 1]] /\
  cerr (fst run) = [] /\
  map req_terms (bridge_requests (fst run)) =
    [[(0, 0, d_1_0); (2, 2, d_m2_0); (0, 2, d_3_5)]].
Proof. cbv zeta. repeat split; vm_compute; reflexivity. Qed.

(** The stub solver raises "timeout": the adapter names itself and the
    reason on [std::cerr] and reports nothing. *)
Example scenario_timeout_is_diagnosed :
  let run := DWaveQPU Stub.times_out true scenario zero false None
               initial_process in
  snd run = Normal tt /\
  reported (fst run) = [] /\
  error_object (fst run) = "timeout" /\
  cerr (fst run) = ["DWaveQPU error: timeout"].
Proof. cbv zeta. repeat split; vm_compute; reflexivity. Qed.

(** Without [USE_DWAVE] both adapters report the missing capability. *)
Example scenario_disabled_build :
  let run := DWaveSA Stub.answers false scenario zero false None
               initial_process in
  snd run = Normal tt /\
  reported (fst run) = [] /\
  foreign_calls (fst run) = [] /\
  cerr (fst run) =
    ["DWaveSA error: D-Wave support not compiled (USE_DWAVE not defined)"].
Proof. cbv zeta. repeat split; vm_compute; reflexivity. Qed.

(* ===================================================================== *)
(** ** Term extraction: edge cases and invariants *)
(* ===================================================================== *)

(** X1: How building the term list ends, for either constructor and every
    instance: [terms.reserve] throws [std::length_error] exactly when size
    plus edge count is negative; otherwise the diagonal loop reads outside
    [lin] exactly when the instance has fewer than [get_size()] linear
    weights; and a term list is built exactly when neither happens, and
    then it is the diagonal-then-off-diagonal list. *)
Theorem build_terms_defined_iff (a : adapter) (qi : QUBOInstance) :
  (build_terms_of a qi = Exceptional length_error <->
   get_size qi + get_edge_count qi < 0) /\
  (build_terms_of a qi = Undefined <->
   0 <= get_size qi + get_edge_count qi /\
   (List.length (get_lin qi) < Z.to_nat (get_size qi))%nat) /\
  (build_terms_of a qi = Normal (TermSpec.term_list qi) <->
   0 <= get_size qi + get_edge_count qi /\
   (Z.to_nat (get_size qi) <= List.length (get_lin qi))%nat) /\
  (forall terms, build_terms_of a qi = Normal terms ->
                 terms = TermSpec.term_list qi) /\
  (forall e, build_terms_of a qi = Exceptional e -> e = length_error).
Proof.
  rewrite build_terms_of_extract. unfold extract, reserve_throws.
  destruct (Z.ltb_spec (get_size qi + get_edge_count qi) 0) as [Hneg|Hpos];
    [|destruct (Nat.leb_spec (Z.to_nat (get_size qi))
                 (List.length (get_lin qi))) as [Hle|Hlt]].
  - repeat split; intros; try discriminate; try lia; try congruence.
  - repeat split; intros; try discriminate; try lia; try congruence.
  - repeat split; intros; try discriminate; try lia; try congruence.
Qed.

(** X2: When the size is zero or negative and [terms.reserve] does not throw
    (size plus edge count is not negative), the diagonal loop does not run:
    [lin] is never read, whatever it holds, and the term list is the
    off-diagonal part alone; with no iterator entries it is empty. *)
Theorem nonpositive_size_skips_diagonal (a : adapter) (qi : QUBOInstance)
    (Hsize : get_size qi <= 0)
    (Hreserve : 0 <= get_size qi + get_edge_count qi) :
  build_terms_of a qi = Normal (TermSpec.offdiagonal_terms qi) /\
  (get_all_nonzero qi = [] -> build_terms_of a qi = Normal []).
Proof.
  assert (H : build_terms_of a qi = Normal (TermSpec.offdiagonal_terms qi)).
  { rewrite build_terms_of_extract. unfold extract, reserve_throws.
    destruct (Z.ltb_spec (get_size qi + get_edge_count qi) 0); [lia|].
    replace (Z.to_nat (get_size qi)) with 0%nat by lia. cbn [Nat.leb].
    unfold TermSpec.term_list, TermSpec.diagonal_terms, TermSpec.indices.
    replace (Z.to_nat (get_size qi)) with 0%nat by lia. reflexivity. }
  split; [exact H|].
  intros Hnone. rewrite H. unfold TermSpec.offdiagonal_terms.
  now rewrite Hnone.
Qed.

Lemma nonpositive_size_skips_diagonal_empty :
  get_size {| get_size := 0; get_lin := [d_1_0]; get_all_nonzero := [] |} <= 0 /\
  0 <= get_size {| get_size := 0; get_lin := [d_1_0]; get_all_nonzero := [] |} +
       get_edge_count
         {| get_size := 0; get_lin := [d_1_0]; get_all_nonzero := [] |} /\
  build_terms_of SA {| get_size := 0; get_lin := [d_1_0]; get_all_nonzero := [] |} =
    Normal [] /\
  build_terms_of QPU
    {| get_size := -1; get_lin := []; get_all_nonzero := [((0, 1), d_3_5)] |} =
    Normal [(0, 1, d_3_5)].
Proof.
  split; [cbn; lia|]. split; [cbn; lia|]. split.
  - apply (nonpositive_size_skips_diagonal SA
             {| get_size := 0; get_lin := [d_1_0]; get_all_nonzero := [] |});
      [cbn; lia|cbn; lia|reflexivity].
  - apply (nonpositive_size_skips_diagonal QPU
             {| get_size := -1; get_lin := [];
                get_all_nonzero := [((0, 1), d_3_5)] |});
      cbn; lia.
Defined.

(** X3: In the list a constructor builds, everything after the diagonal
    triples is the nonzero entries of the iterator, one triple each, in the
    iterator's order and with the index pair exactly as the iterator gives
    it (a pair with the larger index first stays that way).  So a triple
    with two different indices is in the list exactly when it is a nonzero
    entry of the iterator, and [row <= col] holds for every term as soon as
    it holds for the iterator's pairs. *)
Theorem iterator_pairs_are_forwarded (a : adapter) (qi : QUBOInstance)
    (terms : list term)
    (Hterms : build_terms_of a qi = Normal terms) :
  (exists diagonal,
      terms =
        diagonal ++
        map (fun entry => (fst (fst entry), snd (fst entry), snd entry))
            (filter (fun entry => ne (snd entry) zero) (get_all_nonzero qi)) /\
      Forall (fun t => row t = col t) diagonal) /\
  (forall i j w, i <> j ->
      (In (i, j, w) terms <->
       In ((i, j), w) (get_all_nonzero qi) /\ ne w zero = true)) /\
  ((forall entry, In entry (get_all_nonzero qi) ->
                  fst (fst entry) <= snd (fst entry)) ->
   forall t, In t terms -> row t <= col t).
Proof.
  assert (Hshape : terms =
            TermSpec.diagonal_terms qi ++ TermSpec.offdiagonal_terms qi).
  { rewrite build_terms_of_extract in Hterms. unfold extract in Hterms.
    destruct (reserve_throws _); [discriminate|].
    destruct (_ <=? _)%nat; [|discriminate]. now injection Hterms as <-. }
  assert (Hdiag : Forall (fun t => row t = col t) (TermSpec.diagonal_terms qi)).
  { apply Forall_forall. intros t Ht. unfold TermSpec.diagonal_terms in Ht.
    apply in_map_iff in Ht. now destruct Ht as (k & <- & _). }
  assert (Hoff : forall i j w,
             In (i, j, w) (TermSpec.offdiagonal_terms qi) <->
             In ((i, j), w) (get_all_nonzero qi) /\ ne w zero = true).
  { intros i j w. unfold TermSpec.offdiagonal_terms.
    rewrite in_map_iff. split.
    - intros ([[i' j'] w'] & Heq & Hin). cbn in Heq.
      injection Heq as -> -> ->. now apply filter_In in Hin.
    - intros [Hin Hnz]. exists ((i, j), w). split; [reflexivity|].
      apply filter_In. now split. }
  subst terms. split; [|split].
  - exists (TermSpec.diagonal_terms qi). split; [reflexivity|exact Hdiag].
  - intros i j w Hij. rewrite in_app_iff, Hoff. split; [|now right].
    intros [Hin|Hin]; [|exact Hin].
    rewrite Forall_forall in Hdiag. apply Hdiag in Hin.
    unfold row, col in Hin; cbn in Hin. contradiction.
  - intros Hpairs [[i j] w] Ht. apply in_app_or in Ht.
    destruct Ht as [Ht|Ht].
    + rewrite Forall_forall in Hdiag. apply Hdiag in Ht.
      unfold row, col in *; cbn in *. lia.
    + apply Hoff in Ht. destruct Ht as [Ht _].
      apply Hpairs in Ht. exact Ht.
Qed.

Lemma iterator_pairs_are_forwarded_reversed :
  build_terms_of QPU reversed_pair = Normal [(0, 0, d_1_0); (1, 0, d_3_5)] /\
  In (1, 0, d_3_5) [(0, 0, d_1_0); (1, 0, d_3_5)] /\
  ~ In (0, 1, d_3_5) [(0, 0, d_1_0); (1, 0, d_3_5)].
Proof.
  pose proof (iterator_pairs_are_forwarded QPU reversed_pair
                [(0, 0, d_1_0); (1, 0, d_3_5)] eq_refl) as (_ & H & _).
  split; [reflexivity|]. split.
  - apply (H 1 0 d_3_5); [lia|]. split; [now left|reflexivity].
  - intros Hin. apply (H 0 1 d_3_5) in Hin; [|lia].
    destruct Hin as [[Hin|[]] _]. discriminate Hin.
Defined.

(** X4: Marshalling the term list loses nothing: the Python list has one
    3-tuple per term, in order, and different term lists give different
    arguments. *)
Theorem terms_to_py_is_lossless (terms terms' : list term) :
  (exists items, terms_to_py terms = PyList items /\
                 List.length items = List.length terms /\
                 forall k t, nth_error terms k = Some t ->
                             nth_error items k =
                               Some (PyTuple [PyInt (row t); PyInt (col t);
                                              PyFloat (weight t)])) /\
  (terms_to_py terms = terms_to_py terms' -> terms = terms').
Proof.
  split.
  - eexists. split; [reflexivity|]. split; [apply length_map|].
    intros k t Hk. now rewrite nth_error_map, Hk.
  - unfold terms_to_py. intros H. injection H as H.
    revert terms' H. induction terms as [|[[i j] w] ts IH];
      intros [|[[i' j'] w'] ts'] H; cbn in H; try discriminate;
      [reflexivity|].
    injection H as -> -> -> H. f_equal. now apply IH.
Qed.

(* ===================================================================== *)
(** ** The bridge: lifecycle of the interpreter and of the GIL *)
(* ===================================================================== *)

Import Trace.

Lemma records_ret {A : Type} (P : event -> Prop) (a : A) : records P (ret a).
Proof.
  exists [], (Normal a). split; [constructor|].
  intros s. now rewrite add_calls_nil.
Qed.

Lemma records_foreign {A : Type} (P : event -> Prop) (ph : phase)
    (c : foreign_call) (r : raised A) :
  (forall raised, P {| ev_phase := ph; ev_call := c; ev_raised := raised |}) ->
  records P (foreign ph c r).
Proof.
  intros HP. destruct r as [a|e]; eexists; eexists;
    (split; [|intros s; reflexivity]); repeat constructor; apply HP.
Qed.

Lemma records_bind {A B : Type} (P : event -> Prop) (m : M A) (k : A -> M B) :
  records P m -> (forall a, records P (k a)) -> records P (bind m k).
Proof.
  intros (new & r & HP & Hm) Hk. unfold bind.
  destruct r as [a| e |].
  - destruct (Hk a) as (new' & r' & HP' & Hk').
    exists (new ++ new'), r'. split; [now apply Forall_app|].
    intros s. now rewrite Hm, Hk', add_calls_add_calls.
  - exists new, (Exceptional e). split; [exact HP|]. intros s. now rewrite Hm.
  - exists new, Undefined. split; [exact HP|]. intros s. now rewrite Hm.
Qed.

Lemma records_try_catch_std {A : Type} (P : event -> Prop) (body on_std : M A) :
  records P body -> records P on_std -> records P (try_catch_std body on_std).
Proof.
  intros (new & r & HP & Hm) (new' & r' & HP' & Hh). unfold try_catch_std.
  destruct r as [a| [what|] |].
  - exists new, (Normal a). split; [exact HP|]. intros s. now rewrite Hm.
  - exists (new ++ new'), r'. split; [now apply Forall_app|].
    intros s. now rewrite Hm, Hh, add_calls_add_calls.
  - exists new, (Exceptional OtherException). split; [exact HP|].
    intros s. now rewrite Hm.
  - exists new, Undefined. split; [exact HP|]. intros s. now rewrite Hm.
Qed.

(** The scoped GIL guard brackets what its block records, on every way out
    of the block. *)
Lemma gil_scoped_acquire_brackets {A : Type} (P : event -> Prop) (block : M A) :
  records P block ->
  exists inner r,
    Forall P inner /\
    forall s, gil_scoped_acquire block s =
              (add_calls (gil_acquired :: inner ++ [gil_released]) s, r).
Proof.
  intros (new & r & HP & Hm). exists new, r. split; [exact HP|].
  intros s. unfold gil_scoped_acquire, record_call.
  rewrite Hm, !add_calls_add_calls. reflexivity.
Qed.

Ltac records_step :=
  first
    [ apply records_ret
    | apply records_foreign; intros ?; reflexivity
    | apply records_try_catch_std
    | apply records_bind; [|intros ?]
    | match goal with
      | |- records _ (if ?b then _ else _) => destruct b
      end ].

Section Lifecycle.

Variable py : Python.

Lemma venv_probe_is_interpreter_work (sys sys_path : pyobj) :
  records interpreter_work (venv_probe py sys sys_path).
Proof. unfold venv_probe. repeat records_step. Qed.

(** What the try block records: the GIL is taken first and given back
    last, on the normal and on the exceptional way out alike, and all that
    lies between is work inside the interpreter. *)
Lemma try_block_brackets (qubo_terms : list term) (backend config : string) :
  exists inner r,
    Forall interpreter_work inner /\
    forall s, try_block py qubo_terms backend config s =
              (add_calls (gil_acquired :: inner ++ [gil_released]) s, r).
Proof.
  unfold try_block. apply gil_scoped_acquire_brackets.
  repeat first [ apply venv_probe_is_interpreter_work | records_step ].
Qed.

End Lifecycle.

Lemma initializations_app (a b : list event) :
  initializations (a ++ b) = initializations a ++ initializations b.
Proof. apply filter_app. Qed.

Lemma initializations_interpreter_work (calls : list event) :
  Forall interpreter_work calls -> initializations calls = [].
Proof.
  induction 1 as [|ev calls Hev _ IH]; [reflexivity|].
  cbn. unfold interpreter_work in Hev.
  destruct (ev_call ev); try discriminate Hev; exact IH.
Qed.

(** The enabled [run_dwave_solver], as a record of calls: the construction
    of the interpreter if it is not up yet, then the bracketed try block. *)
Lemma enabled_run_lifecycle (py : Python) (qubo_terms : list term)
    (backend config : string) (error_message : string_ptr) (s : process) :
  let run := run_dwave_solver py true qubo_terms backend config
               error_message s in
  exists inner,
    Forall interpreter_work inner /\
    if interpreter_up s
    then foreign_calls (fst run) =
           foreign_calls s ++ gil_acquired :: inner ++ [gil_released] /\
         interpreter_up (fst run) = true
    else match py_initialize py with
         | Returns _ =>
             foreign_calls (fst run) =
               foreign_calls s ++
               {| ev_phase := Startup; ev_call := Initialize;
                  ev_raised := None |}
               :: gil_acquired :: inner ++ [gil_released] /\
             interpreter_up (fst run) = true
         | Raises e =>
             foreign_calls (fst run) =
               foreign_calls s ++
               [{| ev_phase := Startup; ev_call := Initialize;
                   ev_raised := Some e |}] /\
             interpreter_up (fst run) = false /\
             snd run = Exceptional e /\
             error_object (fst run) = error_object s
         end.
Proof.
  cbv zeta. rewrite run_dwave_solver_branch.
  destruct (try_block_brackets py qubo_terms backend config)
    as (inner & r & HP & Hrun).
  exists inner. split; [exact HP|].
  unfold run_dwave_solver_enabled, get_env, bind, foreign, record_call,
    try_catch_all, store, ret.
  cbn [non_null fst snd record_request interpreter_up].
  destruct (interpreter_up s);
    [|destruct (py_initialize py) as [[]|e]];
    destruct error_message; cbn [non_null];
    rewrite ?Hrun; try destruct r as [res|[what|]|];
    cbn; rewrite <- ?app_assoc; repeat split.
Qed.

(** X5: The interpreter is constructed at most once: a call that finds it up
    does not construct it again, a call that returns leaves it up, and no
    call constructs it more than once.  So after one call that returned, no
    later call, whatever its arguments, records a construction. *)
Theorem interpreter_is_constructed_at_most_once
    (py : Python) (qubo_terms qubo_terms' : list term)
    (backend config backend' config' : string)
    (error_message error_message' : string_ptr) (s : process) :
  let run := run_dwave_solver py true qubo_terms backend config
               error_message s in
  let again := run_dwave_solver py true qubo_terms' backend' config'
                 error_message' (fst run) in
  (interpreter_up s = true ->
   interpreter_up (fst run) = true /\
   initializations (foreign_calls (fst run)) =
     initializations (foreign_calls s)) /\
  (List.length (initializations (foreign_calls (fst run))) <=
   List.length (initializations (foreign_calls s)) + 1)%nat /\
  (forall res, snd run = Normal res ->
     interpreter_up (fst run) = true /\
     initializations (foreign_calls (fst again)) =
       initializations (foreign_calls (fst run))).
Proof.
  assert (Hup : forall t b c e s0,
             interpreter_up s0 = true ->
             interpreter_up (fst (run_dwave_solver py true t b c e s0)) = true /\
             initializations
               (foreign_calls (fst (run_dwave_solver py true t b c e s0))) =
             initializations (foreign_calls s0)).
  { intros t b c e s0 H0.
    destruct (enabled_run_lifecycle py t b c e s0) as (inner & HP & H).
    cbv zeta in H. rewrite H0 in H. destruct H as [Hc Hi].
    split; [exact Hi|]. rewrite Hc.
    change (gil_acquired :: inner ++ [gil_released])
      with ([gil_acquired] ++ inner ++ [gil_released]).
    rewrite !initializations_app, (initializations_interpreter_work _ HP).
    cbn. now rewrite app_nil_r. }
  cbv zeta. split; [apply Hup|].
  destruct (enabled_run_lifecycle py qubo_terms backend config error_message s)
    as (inner & HP & H).
  cbv zeta in H.
  destruct (interpreter_up s) eqn:Hs.
  - destruct (Hup qubo_terms backend config error_message s Hs) as [Hi Hn].
    split; [rewrite Hn; lia|]. intros res _. split; [exact Hi|].
    now apply Hup.
  - destruct (py_initialize py) as [[]|e].
    + destruct H as [Hc Hi]. split.
      * rewrite Hc.
        change (?x :: gil_acquired :: inner ++ [gil_released])
          with ([x] ++ [gil_acquired] ++ inner ++ [gil_released]).
        rewrite !initializations_app, (initializations_interpreter_work _ HP).
        cbn. rewrite length_app. cbn. lia.
      * intros res _. split; [exact Hi|]. now apply Hup.
    + destruct H as (Hc & Hi & Hr & _). split.
      * rewrite Hc, initializations_app, length_app. cbn. lia.
      * intros res Hres. congruence.
Qed.

(** X6: The GIL is given back on every way out of [run_dwave_solver]: whenever
    the interpreter is up or can be constructed, the calls of one invocation
    are the acquisition of the GIL, then work inside the interpreter, then
    the release of the GIL, also when an exception ends the try block; and
    when the interpreter cannot be constructed the GIL is never taken. *)
Theorem gil_is_released_on_every_path
    (py : Python) (qubo_terms : list term) (backend config : string)
    (error_message : string_ptr) (s : process) :
  let run := run_dwave_solver py true qubo_terms backend config
               error_message s in
  exists startup inner,
    Forall interpreter_work inner /\
    (foreign_calls (fst run) =
       foreign_calls s ++ startup ++ gil_acquired :: inner ++ [gil_released] /\
     Forall (fun ev => ev_call ev = Initialize /\ ev_raised ev = None) startup /\
     (List.length startup <= 1)%nat
     \/
     exists e,
       py_initialize py = Raises e /\
       snd run = Exceptional e /\
       foreign_calls (fst run) =
         foreign_calls s ++
         [{| ev_phase := Startup; ev_call := Initialize;
             ev_raised := Some e |}]).
Proof.
  destruct (enabled_run_lifecycle py qubo_terms backend config error_message s)
    as (inner & HP & H).
  cbv zeta in *.
  destruct (interpreter_up s).
  - exists [], inner. split; [exact HP|]. left.
    destruct H as [Hc _]. split; [exact Hc|]. split; [constructor|cbn; lia].
  - destruct (py_initialize py) as [[]|e].
    + exists [{| ev_phase := Startup; ev_call := Initialize;
                 ev_raised := None |}], inner.
      split; [exact HP|]. left. destruct H as [Hc _].
      split; [exact Hc|]. split; [repeat constructor|cbn; lia].
    + exists [], inner. split; [exact HP|]. right. exists e.
      destruct H as (Hc & _ & Hr & _). repeat split; assumption.
Qed.

(* ===================================================================== *)
(** ** The bridge: module search path and the one call of the solver *)
(* ===================================================================== *)

Lemma path_inserts_app (a b : list event) :
  path_inserts (a ++ b) = path_inserts a ++ path_inserts b.
Proof. apply flat_map_app. Qed.

Section SearchPath.

Variable py : Python.

(** The guarded .venv block inserts at most one entry, at the front: the
    site-packages directory named after the version the interpreter itself
    reports, and only when [isdir] says that the directory exists. *)
Lemma venv_probe_inserts (sys sys_path : pyobj) (s : process) :
  exists new r,
    try_catch_std (venv_probe py sys sys_path) (ret tt) s = (add_calls new s, r) /\
    Forall (fun ev => ev_phase ev = VenvProbe) new /\
    (path_inserts new = [] \/
     exists version_info major_obj minor_obj major minor os os_path isdir answer,
       py_getattr py sys "version_info" = Returns version_info /\
       py_getattr py version_info "major" = Returns major_obj /\
       py_cast_int py major_obj = Returns major /\
       py_getattr py version_info "minor" = Returns minor_obj /\
       py_cast_int py minor_obj = Returns minor /\
       py_import py "os" = Returns os /\
       py_getattr py os "path" = Returns os_path /\
       py_getattr py os_path "isdir" = Returns isdir /\
       py_call py isdir [PyStr (venv_site_path major minor)] = Returns answer /\
       py_cast_bool py answer = Returns true /\
       path_inserts new = [(0, PyStr (venv_site_path major minor))]) /\
    (r = Normal tt \/ r = Exceptional OtherException).
Proof.
  unfold try_catch_std, venv_probe, bind, foreign, record_call, ret.
  repeat oracle_step;
    repeat match goal with u : unit |- _ => destruct u end;
    rewrite ?add_calls_add_calls; cbn [app];
    (eexists; eexists; split; [reflexivity|]);
    (split; [repeat constructor|]); cbn;
    (split; [|auto]);
    first [ left; reflexivity
          | right; do 9 eexists; repeat split; eassumption ].
Qed.

(** The try block, as to the module search path and the solver: "python"
    is inserted at the front before anything else is, the .venv directory at
    most once after it, and the solver is called at most once, and only
    after "python" was inserted. *)
Lemma try_block_trace (qubo_terms : list term) (backend config : string)
    (s : process) :
  exists new r,
    try_block py qubo_terms backend config s = (add_calls new s, r) /\
    (List.length (Spec.invocations new) <= 1)%nat /\
    (path_inserts new = [] /\ Spec.invocations new = [] \/
     path_inserts new = [(0, PyStr "python")] \/
     exists major minor,
       path_inserts new =
         [(0, PyStr "python"); (0, PyStr (venv_site_path major minor))]) /\
    (forall sys sys_path,
        py_import py "sys" = Returns sys ->
        py_getattr py sys "path" = Returns sys_path ->
        py_list_insert py sys_path 0 (PyStr "python") = Returns tt ->
        exists rest, path_inserts new = (0, PyStr "python") :: rest).
Proof.
  unfold try_block, gil_scoped_acquire, bind, foreign, record_call, ret.
  repeat oracle_step;
    try match goal with
        | |- context [try_catch_std (venv_probe _ ?a ?b) _ ?S] =>
            destruct (venv_probe_inserts a b S)
              as (pnew & pr & Hp & Hph & Hins & [-> | ->]);
            unfold ret in Hp; rewrite Hp; cbn
        end;
    rewrite ?add_calls_add_calls;
    (eexists; eexists; split; [reflexivity|]);
    rewrite ?invocations_app, ?path_inserts_app;
    rewrite ?(invocations_venv_probe _ Hph); cbn;
    (split; [lia|]);
    try (destruct Hins as [->|(vi & mao & mio & major & minor & Hins)];
         [|destruct Hins as (os & osp & isd & ans & _ & _ & _ & _ & _ & _ & _
                               & _ & _ & _ & ->)]);
    cbn;
    (split;
     [ first [ left; split; reflexivity
             | right; left; reflexivity
             | right; right; eexists; eexists; reflexivity ]
     | intros sys0 sp0 H1 H2 H3;
       first [ eexists; reflexivity | congruence ] ]).
Qed.

End SearchPath.

(** X7: The .venv block is best effort: whatever happens inside it, no
    exception derived from [std::exception] leaves it and nothing undefined
    happens; it touches nothing but the interpreter; and it puts at most one
    entry in front of [sys.path], the site-packages directory named after
    the version [sys.version_info] reports, and only when the [isdir]
    attribute of the [path] attribute of the imported module [os], called
    on that directory, returned an object that casts to true. *)
Theorem venv_block_is_best_effort
    (py : Python) (sys sys_path : pyobj) (s : process) :
  let run := try_catch_std (venv_probe py sys sys_path) (ret tt) s in
  (snd run = Normal tt \/ snd run = Exceptional OtherException) /\
  error_object (fst run) = error_object s /\
  cerr (fst run) = cerr s /\
  reported (fst run) = reported s /\
  exists new,
    foreign_calls (fst run) = foreign_calls s ++ new /\
    Forall (fun ev => ev_phase ev = VenvProbe) new /\
    (path_inserts new = [] \/
     exists version_info major_obj minor_obj major minor os os_path isdir answer,
       py_getattr py sys "version_info" = Returns version_info /\
       py_getattr py version_info "major" = Returns major_obj /\
       py_cast_int py major_obj = Returns major /\
       py_getattr py version_info "minor" = Returns minor_obj /\
       py_cast_int py minor_obj = Returns minor /\
       py_import py "os" = Returns os /\
       py_getattr py os "path" = Returns os_path /\
       py_getattr py os_path "isdir" = Returns isdir /\
       py_call py isdir [PyStr (venv_site_path major minor)] = Returns answer /\
       py_cast_bool py answer = Returns true /\
       path_inserts new = [(0, PyStr (venv_site_path major minor))]).
Proof.
  destruct (venv_probe_inserts py sys sys_path s)
    as (new & r & Hrun & Hphase & Hins & Hr).
  cbv zeta. rewrite Hrun. cbn [fst snd].
  split; [exact Hr|]. repeat (split; [reflexivity|]).
  exists new. split; [reflexivity|]. split; [exact Hphase|].
  destruct Hins as [Hnone|Hone]; [now left|right].
  destruct Hone as (vi & mao & mio & major & minor & os & osp & isd & ans
                    & H1 & H2 & H3 & H4 & H5 & H6 & H7 & H8 & H9 & H10 & H11).
  exists vi, mao, mio, major, minor, os, osp, isd, ans.
  repeat split; assumption.
Qed.

(** X8: Per call of [run_dwave_solver] in the enabled build: the entries put
    in front of [sys.path] are none, or "python", or "python" and then the
    .venv site-packages directory; whenever [sys.path.insert(0, "python")]
    works, "python" is put in front again, whatever earlier calls have
    already inserted; and the solver is called only after that insertion. *)
Theorem python_directory_is_prepended_on_every_call
    (py : Python) (qubo_terms : list term) (backend config : string)
    (error_message : string_ptr) (s : process) :
  let run := run_dwave_solver py true qubo_terms backend config
               error_message s in
  exists new,
    foreign_calls (fst run) = foreign_calls s ++ new /\
    (path_inserts new = [] /\ Spec.invocations new = [] \/
     path_inserts new = [(0, PyStr "python")] \/
     exists major minor,
       path_inserts new =
         [(0, PyStr "python"); (0, PyStr (venv_site_path major minor))]) /\
    (forall sys sys_path,
        interpreter_up s = true \/ py_initialize py = Returns tt ->
        py_import py "sys" = Returns sys ->
        py_getattr py sys "path" = Returns sys_path ->
        py_list_insert py sys_path 0 (PyStr "python") = Returns tt ->
        exists rest, path_inserts new = (0, PyStr "python") :: rest).
Proof.
  cbv zeta. rewrite run_dwave_solver_branch.
  unfold run_dwave_solver_enabled, get_env, bind, foreign, record_call,
    try_catch_all, store, ret.
  cbn [non_null fst snd record_request interpreter_up].
  destruct (interpreter_up s) eqn:Hup;
    [|destruct (py_initialize py) as [[]|e] eqn:Hinit];
    destruct error_message; cbn [non_null];
    try match goal with
        | |- context [try_block py ?t ?b ?c ?S] =>
            destruct (try_block_trace py t b c S)
              as (new & r & Hrun & _ & Hshape & Hpython);
            rewrite Hrun; destruct r as [res|[what|]|]
        end;
    cbn; rewrite <- ?app_assoc;
    (eexists; split; [reflexivity|]);
    rewrite ?path_inserts_app, ?invocations_app; cbn;
    try (split; [exact Hshape | intros sys sp _; apply Hpython]).
  all: split; [left; split; reflexivity|].
  all: intros sys sp [H|H]; congruence.
Qed.

(** X9: For a call with a non-null pointer, in either build: a result with a
    non-empty [best_sample] comes with an empty error message, also when the
    caller's string held an old message, and a non-empty error message
    comes with the cleared result (empty sample, weight [0.0]).  The only
    exception that can leave the function is that of the interpreter's
    construction. *)
Theorem sample_and_error_are_exclusive
    (py : Python) (USE_DWAVE : bool) (qubo_terms : list term)
    (backend config : string) (s : process) :
  let run := run_dwave_solver py USE_DWAVE qubo_terms backend config
               address_of_error s in
  match snd run with
  | Normal res =>
      (best_sample res <> [] -> error_object (fst run) = "") /\
      (error_object (fst run) <> "" -> res = cleared)
  | Exceptional e =>
      USE_DWAVE = true /\ interpreter_up s = false /\
      py_initialize py = Raises e
  | Undefined => False
  end.
Proof.
  cbv zeta. rewrite run_dwave_solver_branch. destruct USE_DWAVE.
  - match goal with
    | |- context [run_dwave_solver_enabled py ?t ?b ?c ?e ?S] =>
        destruct (run_dwave_solver_enabled_run py t b c e S)
          as (new & r & Hr & _ & _ & _ & _ & _ & Hcase)
    end.
    cbv zeta in Hcase. rewrite Hr.
    destruct Hcase as [(Hdown & e & Hraise & -> & _)|(_ & _ & res & -> & Hesc)].
    + repeat split; assumption.
    + cbn [non_null] in Hesc. destruct (Spec.escaping new) as [|e rest].
      * split; [intros _; exact Hesc|]. intros H. contradiction.
      * destruct Hesc as (_ & -> & _).
        split; [intros H; now destruct H|reflexivity].
  - cbn. split; [intros H; now destruct H|reflexivity].
Qed.

(** X10: When every required call into the interpreter returns and the guarded
    .venv block ends normally, [run_dwave_solver] returns the values the two
    casts gave, [solve_qubo] having been called with the marshalled terms,
    the backend, and the config object; the error message is empty. *)
Theorem successful_call_returns_coerced_values
    (py : Python) (qubo_terms : list term) (backend config : string)
    (error_message : string_ptr) (s : process)
    (sys sys_path m solve_qubo res seq sample_obj weight_obj : pyobj)
    (sample : list Z) (w : double)
    (Hinit : interpreter_up s = true \/ py_initialize py = Returns tt)
    (Hsys : py_import py "sys" = Returns sys)
    (Hpath : py_getattr py sys "path" = Returns sys_path)
    (Hinsert : py_list_insert py sys_path 0 (PyStr "python") = Returns tt)
    (Hprobe : forall s0,
        snd (try_catch_std (venv_probe py sys sys_path) (ret tt) s0) = Normal tt)
    (Hmodule : py_import py "mqlib_dwave" = Returns m)
    (Hsolve : py_getattr py m "solve_qubo" = Returns solve_qubo)
    (Hcall : py_call py solve_qubo
               [terms_to_py qubo_terms; PyStr backend; cfg_path_obj config] =
             Returns res)
    (Hseq : py_as_sequence py res = Returns seq)
    (Hitem0 : py_getitem py seq 0 = Returns sample_obj)
    (Hitem1 : py_getitem py seq 1 = Returns weight_obj)
    (Hsample : py_cast_vector_int py sample_obj = Returns sample)
    (Hweight : py_cast_double py weight_obj = Returns w) :
  let run := run_dwave_solver py true qubo_terms backend config
               error_message s in
  snd run = Normal {| best_sample := sample; best_weight := w |} /\
  error_object (fst run) =
    (if non_null error_message then "" else error_object s) /\
  interpreter_up (fst run) = true.
Proof.
  assert (Hblock : forall s0,
             snd (try_block py qubo_terms backend config s0) =
               Normal {| best_sample := sample; best_weight := w |} /\
             error_object (fst (try_block py qubo_terms backend config s0)) =
               error_object s0 /\
             interpreter_up (fst (try_block py qubo_terms backend config s0)) =
               interpreter_up s0).
  { intros s0.
    unfold try_block, gil_scoped_acquire, bind, foreign, record_call.
    rewrite Hsys; cbn. rewrite Hpath; cbn. rewrite Hinsert; cbn.
    match goal with
    | |- context [try_catch_std (venv_probe _ ?a ?b) _ ?S] =>
        destruct (venv_probe_guarded py a b S) as (pnew & pr & Hp & _ & _);
        pose proof (Hprobe S) as HS; rewrite Hp in HS; cbn in HS; subst pr;
        rewrite Hp; cbn
    end.
    rewrite Hmodule; cbn. rewrite Hsolve; cbn. rewrite Hcall; cbn.
    rewrite Hseq; cbn. rewrite Hitem0; cbn. rewrite Hitem1; cbn.
    rewrite Hsample; cbn. rewrite Hweight; cbn. repeat split. }
  cbv zeta. rewrite run_dwave_solver_branch.
  unfold run_dwave_solver_enabled, get_env, bind, foreign, record_call,
    try_catch_all, store, ret.
  cbn [non_null fst snd record_request interpreter_up].
  destruct (interpreter_up s) eqn:Hup;
    [|destruct Hinit as [Hinit|Hinit]; [discriminate|rewrite Hinit]];
    destruct error_message; cbn [non_null];
    match goal with
    | |- context [try_block py ?t ?b ?c ?S] =>
        destruct (Hblock S) as (H1 & H2 & H3);
        destruct (try_block py t b c S) as [s1 r1]
    end;
    cbn [fst snd] in H1, H2, H3; subst r1; cbn; rewrite ?H2, ?H3;
    repeat split; cbn; auto.
Qed.

Lemma successful_call_returns_coerced_values_stub :
  let run := run_dwave_solver Stub.answers true
               [(0, 0, d_1_0); (2, 2, d_m2_0); (0, 2, d_3_5)] "sa" ""
               address_of_error initial_process in
  (interpreter_up initial_process = true \/
   py_initialize Stub.answers = Returns tt) /\
  snd run = Normal {| best_sample := [1; 0; 1]; best_weight := d_m0_5 |} /\
  error_object (fst run) = "" /\
  interpreter_up (fst run) = true.
Proof.
  cbv zeta. split; [right; reflexivity|].
  apply (successful_call_returns_coerced_values Stub.answers
           [(0, 0, d_1_0); (2, 2, d_m2_0); (0, 2, d_3_5)] "sa" ""
           address_of_error initial_process
           (PyHandle "sys") (PyHandle "path") (PyHandle "mqlib_dwave")
           (PyHandle "solve_qubo")
           (PyTuple [PyList [PyInt 1; PyInt 0; PyInt 1]; PyFloat d_m0_5])
           (PyTuple [PyList [PyInt 1; PyInt 0; PyInt 1]; PyFloat d_m0_5])
           (PyList [PyInt 1; PyInt 0; PyInt 1]) (PyFloat d_m0_5)
           [1; 0; 1] d_m0_5);
    try reflexivity; right; reflexivity.
Defined.

(* ===================================================================== *)
(** ** The adapters: the bridge's outcomes, end to end *)
(* ===================================================================== *)

(** X11: When the interpreter is not up and cannot be constructed, the
    exception of its constructor leaves [run_dwave_solver], which calls
    [get_env()] before its try block, and then the constructor of the
    adapter: no diagnostic is written, nothing is reported, and the
    interpreter stays down. *)
Theorem construction_failure_leaves_the_adapter
    (a : adapter) (py : Python) (qi : QUBOInstance) (runtime_limit : double)
    (validation : bool) (qc : option nat) (s : process) (e : exn)
    (terms : list term)
    (Hterms : build_terms_of a qi = Normal terms)
    (Hdown : interpreter_up s = false)
    (Hraise : py_initialize py = Raises e) :
  let run := construct a py true qi runtime_limit validation qc s in
  snd run = Exceptional e /\
  cerr (fst run) = cerr s /\
  reported (fst run) = reported s /\
  interpreter_up (fst run) = false /\
  foreign_calls (fst run) =
    foreign_calls s ++
    [{| ev_phase := Startup; ev_call := Initialize; ev_raised := Some e |}].
Proof.
  pose proof (construct_run py true a qi runtime_limit validation qc s) as H.
  cbv zeta in *. rewrite Hterms in H.
  destruct (bridge_call_frame py true a terms s) as (Hcerr & Hrep & _).
  cbv zeta in Hcerr, Hrep.
  destruct (enabled_run_lifecycle py terms (backend_of a) ""
              address_of_error (fst (declare_error s))) as (inner & _ & Hl).
  cbv zeta in Hl.
  assert (Hd : interpreter_up (fst (declare_error s)) = false) by exact Hdown.
  rewrite Hd, Hraise in Hl. destruct Hl as (Hc & Hi & Hr & _).
  unfold bridge_call in H, Hcerr, Hrep.
  rewrite Hr in H. rewrite H. cbn [fst snd].
  rewrite Hcerr, Hrep, Hi, Hc. repeat split.
Qed.

Lemma construction_failure_leaves_the_adapter_stub :
  let run := construct QPU Stub.no_interpreter true scenario zero false None
               initial_process in
  build_terms_of QPU scenario =
    Normal [(0, 0, d_1_0); (2, 2, d_m2_0); (0, 2, d_3_5)] /\
  interpreter_up initial_process = false /\
  py_initialize Stub.no_interpreter =
    Raises (StdException "The interpreter is already running") /\
  snd run = Exceptional (StdException "The interpreter is already running") /\
  cerr (fst run) = [] /\
  reported (fst run) = [].
Proof.
  cbv zeta. split; [reflexivity|]. split; [reflexivity|].
  split; [reflexivity|].
  destruct (construction_failure_leaves_the_adapter QPU Stub.no_interpreter
              scenario zero false None initial_process
              (StdException "The interpreter is already running")
              [(0, 0, d_1_0); (2, 2, d_m2_0); (0, 2, d_3_5)]
              eq_refl eq_refl eq_refl) as (Hr & Hc & Hp & _).
  split; [exact Hr|]. split; [exact Hc|exact Hp].
Defined.

(** X12: Without [USE_DWAVE], an adapter that has a term list ends normally with
    one line on [std::cerr], its name followed by the RuntimeDisabled text;
    it reports nothing and leaves the interpreter alone. *)
Theorem disabled_build_adapter_writes_the_diagnostic
    (a : adapter) (py : Python) (qi : QUBOInstance) (runtime_limit : double)
    (validation : bool) (qc : option nat) (s : process) (terms : list term)
    (Hterms : build_terms_of a qi = Normal terms) :
  let run := construct a py false qi runtime_limit validation qc s in
  snd run = Normal tt /\
  cerr (fst run) =
    cerr s ++ [(name_of a ++ " error: " ++ runtime_disabled_text)%string] /\
  reported (fst run) = reported s /\
  foreign_calls (fst run) = foreign_calls s /\
  interpreter_up (fst run) = interpreter_up s.
Proof.
  pose proof (construct_run py false a qi runtime_limit validation qc s) as H.
  cbv zeta in *. rewrite Hterms in H.
  unfold bridge_call in H. rewrite run_dwave_solver_branch in H.
  cbn in H. rewrite H. cbn. repeat split.
Qed.

Lemma disabled_build_adapter_writes_the_diagnostic_stub :
  let run := construct SA Stub.answers false scenario zero false None
               initial_process in
  build_terms_of SA scenario =
    Normal [(0, 0, d_1_0); (2, 2, d_m2_0); (0, 2, d_3_5)] /\
  snd run = Normal tt /\
  cerr (fst run) =
    [] ++ [(name_of SA ++ " error: " ++ runtime_disabled_text)%string] /\
  reported (fst run) = [].
Proof.
  cbv zeta. split; [reflexivity|].
  destruct (disabled_build_adapter_writes_the_diagnostic SA Stub.answers
              scenario zero false None initial_process
              [(0, 0, d_1_0); (2, 2, d_m2_0); (0, 2, d_3_5)] eq_refl)
    as (Hr & Hc & Hp & _).
  split; [exact Hr|]. split; [exact Hc|exact Hp].
Defined.

(** X13: From the foreign call to the diagnostic: in the enabled build with the
    interpreter available, when a call into the interpreter raises an
    exception that no inner handler stops, the adapter ends normally,
    reports nothing, and writes one line: its name and the exception's
    text, or "no sample returned" when that text is empty. *)
Theorem escaped_exception_reaches_the_diagnostic
    (a : adapter) (py : Python) (qi : QUBOInstance) (runtime_limit : double)
    (validation : bool) (qc : option nat) (s : process) (terms : list term)
    (new : list event) (ev : event) (e : exn)
    (Hterms : build_terms_of a qi = Normal terms)
    (Hinit : interpreter_up s = true \/ py_initialize py = Returns tt)
    (Hcalls : foreign_calls (fst (bridge_call a py true terms s)) =
              foreign_calls s ++ new)
    (Hin : In ev new)
    (Hraised : ev_raised ev = Some e)
    (Hescapes : swallowed ev = false) :
  let run := construct a py true qi runtime_limit validation qc s in
  snd run = Normal tt /\
  reported (fst run) = reported s /\
  cerr (fst run) = cerr s ++ [diagnostic (name_of a) (exception_text e)].
Proof.
  pose proof (construct_run py true a qi runtime_limit validation qc s) as H.
  cbv zeta in *. rewrite Hterms in H.
  destruct (bridge_call_frame py true a terms s) as (Hcerr & Hrep & _).
  cbv zeta in Hcerr, Hrep.
  unfold bridge_call in H, Hcerr, Hrep, Hcalls.
  rewrite run_dwave_solver_branch in H, Hcerr, Hrep, Hcalls.
  match type of Hcalls with
  | context [run_dwave_solver_enabled py ?t ?b ?c ?p ?S] =>
      set (S0 := S) in *;
      destruct (run_dwave_solver_enabled_run py t b c p S0)
        as (new' & r & Hr & Hc & _ & _ & _ & _ & Hcase)
  end.
  cbv zeta in Hc, Hcase.
  change (foreign_calls S0) with (foreign_calls s) in Hc.
  change (interpreter_up S0) with (interpreter_up s) in Hcase.
  cbn [non_null] in Hcase.
  rewrite Hc in Hcalls. apply app_inv_head in Hcalls. subst new'.
  destruct Hcase as [(Hdown & e' & Hraise & _)|(_ & _ & res & -> & Hesc)];
    [destruct Hinit; congruence|].
  pose proof (in_escaping new ev e Hin Hraised Hescapes) as He.
  destruct (escaping new) as [|e0 rest]; [contradiction|].
  destruct Hesc as (-> & -> & Herr). destruct He as [->|[]].
  rewrite Hr in H. rewrite Herr in H.
  cbn [best_sample cleared vempty negb] in H. rewrite andb_false_r in H.
  rewrite H. cbn [fst snd write_cerr cerr reported].
  rewrite Hcerr, Hrep. repeat split.
Qed.

Lemma escaped_exception_reaches_the_diagnostic_timeout :
  let run := construct QPU Stub.times_out true scenario zero false None
               initial_process in
  (interpreter_up initial_process = true \/
   py_initialize Stub.times_out = Returns tt) /\
  snd run = Normal tt /\
  reported (fst run) = [] /\
  cerr (fst run) = ["DWaveQPU error: timeout"].
Proof.
  cbv zeta. split; [right; reflexivity|].
  destruct (escaped_exception_reaches_the_diagnostic QPU Stub.times_out
              scenario zero false None initial_process
              [(0, 0, d_1_0); (2, 2, d_m2_0); (0, 2, d_3_5)]
              (foreign_calls
                 (fst (bridge_call QPU Stub.times_out true
                         [(0, 0, d_1_0); (2, 2, d_m2_0); (0, 2, d_3_5)]
                         initial_process)))
              {| ev_phase := Invocation;
                 ev_call := Call (PyHandle "solve_qubo")
                   [terms_to_py [(0, 0, d_1_0); (2, 2, d_m2_0); (0, 2, d_3_5)];
                    PyStr "qpu"; PyNone];
                 ev_raised := Some (StdException "timeout") |}
              (StdException "timeout")
              eq_refl (or_intror eq_refl) eq_refl)
    as (Hr & Hp & Hc).
  - vm_compute. repeat (first [left; reflexivity | right]).
  - reflexivity.
  - reflexivity.
  - split; [exact Hr|]. split; [exact Hp|]. rewrite Hc. reflexivity.
Defined.

(** X14: No retry: an adapter that has a term list calls [run_dwave_solver]
    exactly once, with its backend name, the empty config path and the
    address of its own error string, and that call calls the solver at most
    once. *)
Theorem adapter_calls_the_solver_at_most_once
    (a : adapter) (py : Python) (USE_DWAVE : bool) (qi : QUBOInstance)
    (runtime_limit : double) (validation : bool) (qc : option nat)
    (s : process) (terms : list term)
    (Hterms : build_terms_of a qi = Normal terms) :
  let run := construct a py USE_DWAVE qi runtime_limit validation qc s in
  bridge_requests (fst run) =
    bridge_requests s ++
    [{| req_terms := terms; req_backend := backend_of a; req_config := "";
        req_error_message := address_of_error |}] /\
  exists new,
    foreign_calls (fst run) = foreign_calls s ++ new /\
    (List.length (invocations new) <= 1)%nat /\
    (USE_DWAVE = false -> new = []).
Proof.
  pose proof (construct_history py USE_DWAVE a qi runtime_limit validation
                qc s) as H.
  cbv zeta in *. rewrite Hterms in H. destruct H as [Hreq Hcalls].
  destruct (bridge_call_frame py USE_DWAVE a terms s) as (_ & _ & Hframe & _).
  cbv zeta in Hframe. rewrite Hreq, Hframe, Hcalls.
  split; [reflexivity|].
  unfold bridge_call. rewrite run_dwave_solver_branch.
  destruct USE_DWAVE.
  - unfold run_dwave_solver_enabled, get_env, bind, foreign, record_call,
      try_catch_all, store, ret.
    cbn.
    destruct (interpreter_up s);
      [|destruct (py_initialize py) as [[]|e]];
      try match goal with
          | |- context [try_block py ?t ?b ?c ?S] =>
              destruct (try_block_trace py t b c S)
                as (new & r & Hrun & Hone & _);
              rewrite Hrun; destruct r as [res|[what|]|]
          end;
      cbn; rewrite <- ?app_assoc;
      (eexists; split; [reflexivity|]);
      rewrite ?invocations_app; cbn;
      (split; [lia|discriminate]).
  - exists []. cbn. rewrite app_nil_r. repeat split. lia.
Qed.

Lemma adapter_calls_the_solver_at_most_once_stub :
  let run := construct SA Stub.answers true scenario zero false None
               initial_process in
  build_terms_of SA scenario =
    Normal [(0, 0, d_1_0); (2, 2, d_m2_0); (0, 2, d_3_5)] /\
  bridge_requests (fst run) =
    [] ++
    [{| req_terms := [(0, 0, d_1_0); (2, 2, d_m2_0); (0, 2, d_3_5)];
        req_backend := backend_of SA; req_config := "";
        req_error_message := address_of_error |}].
Proof.
  cbv zeta. split; [reflexivity|].
  exact (proj1 (adapter_calls_the_solver_at_most_once SA Stub.answers true
                  scenario zero false None initial_process
                  [(0, 0, d_1_0); (2, 2, d_m2_0); (0, 2, d_3_5)] eq_refl)).
Defined.

(* ===================================================================== *)
(** ** The adapters when the interpreter cannot be constructed *)
(* ===================================================================== *)

(** C6, at the input where the code departs from it: the interpreter is not
    up and the constructor of [py::scoped_interpreter] throws.  [get_env()]
    is called before the try block of [run_dwave_solver], so the exception
    leaves the bridge and then the constructor of either adapter: the
    adapter raises, writes no diagnostic and reports nothing; the error
    string is still empty and the interpreter is still down. *)
Theorem adapter_raises_when_interpreter_cannot_start :
  let qpu := DWaveQPU Stub.no_interpreter true scenario zero false None
               initial_process in
  let sa := DWaveSA Stub.no_interpreter true scenario zero false None
              initial_process in
  snd qpu = Exceptional (StdException "The interpreter is already running") /\
  cerr (fst qpu) = [] /\
  reported (fst qpu) = [] /\
  error_object (fst qpu) = "" /\
  interpreter_up (fst qpu) = false /\
  snd sa = Exceptional (StdException "The interpreter is already running") /\
  cerr (fst sa) = [] /\
  reported (fst sa) = [] /\
  foreign_calls (fst sa) =
    [{| ev_phase := Startup; ev_call := Initialize;
        ev_raised := Some (StdException "The interpreter is already running") |}].
Proof. cbv zeta. repeat split; vm_compute; reflexivity. Qed.
